(** * go-identity-operator: the User reconciler and its identity-service client

    A shallow embedding of
      - internal/service/identity_config.go   (NewIdentityConfig and its options),
      - the identity REST client              (GetToken, CreateUser, GetUser,
                                               DeleteUser, UpdateUser),
      - the User controller                   (Reconcile and its helpers),
    followed by the properties of the reconciliation loop.

    Go values are modelled as follows: [string] as [string], [int] as [Z]
    (64-bit, wrap-around written out where the code can reach it), a
    [(T, error)] result as [Result T], a bare [error] result as
    [option error] ([None] is Go's [nil]), slices as lists.  The process
    environment is a finite map from variable names to values.  Calls that
    leave the process (the API server, the HTTP transport, the logger) are
    recorded in a trace and answered by an explicit environment. *)

From Stdlib Require Import ZArith String Ascii List Bool Lia.
From Stdlib Require Import DecimalString.
From stdpp Require Import base option gmap strings.
Import ListNotations.
Local Open Scope string_scope.
Local Open Scope Z_scope.

(** ** Errors and results *)

(** The [Err] field of strconv's [*NumError]. *)
Inductive NumErr : Type := ErrSyntax | ErrRange.

(** Go's [error] values that the program can meet, by origin. *)
Inductive error : Type :=
| StatusError (code : Z) (message : string)   (* k8s.io/apimachinery/pkg/api/errors *)
| NumError (Func Num : string) (kind : NumErr) (* strconv *)
| LibError (pkg message : string).            (* net/url, net/http, io, encoding/json *)

(** errors.IsNotFound *)
Definition IsNotFound (e : error) : bool :=
  match e with
  | StatusError code _ => code =? 404
  | _ => false
  end.

Inductive Result (A : Type) : Type :=
| Ok (a : A)
| Err (e : error).
Arguments Ok {A} a.
Arguments Err {A} e.

(** ** strconv *)

Module strconv.

(** strconv.Itoa: the decimal text of an [int]. *)
Definition Itoa (i : Z) : string := NilZero.string_of_int (Z.to_int i).

Definition byteOf (c : ascii) : Z := Z.of_nat (nat_of_ascii c).

Definition syntaxError (fn str : string) : error := NumError fn str ErrSyntax.
Definition rangeError (fn str : string) : error := NumError fn str ErrRange.

Definition maxUint64 : Z := 2 ^ 64 - 1.

(** The digit loop of ParseUint for base 10 and bitSize 64: [n] is the
    uint64 accumulator.  An overflow returns at once, before the remaining
    bytes are looked at. *)
Fixpoint parseUintLoop (s0 : string) (n : Z) (s : string) : Z * option error :=
  match s with
  | EmptyString => (n, None)
  | String c rest =>
      let b := byteOf c in
      if (48 <=? b) && (b <=? 57) then
        let d := b - 48 in
        if n >=? maxUint64 / 10 + 1 then (maxUint64, Some (rangeError "ParseUint" s0))
        else
          let n := (n * 10) mod 2 ^ 64 in
          let n1 := (n + d) mod 2 ^ 64 in
          if (n1 <? n) || (n1 >? maxUint64) then
            (maxUint64, Some (rangeError "ParseUint" s0))
          else parseUintLoop s0 n1 rest
      else (0, Some (syntaxError "ParseUint" s0))
  end.

(** strconv.ParseUint(s, 10, 0) *)
Definition ParseUint10 (s : string) : Z * option error :=
  if String.eqb s "" then (0, Some (syntaxError "ParseUint" s))
  else parseUintLoop s 0 s.

(** strconv.ParseInt(s, 10, 0) on a 64-bit platform. *)
Definition ParseInt10 (s : string) : Z * option error :=
  match s with
  | EmptyString => (0, Some (syntaxError "ParseInt" s))
  | String c rest =>
      let s0 := s in
      let neg := Ascii.eqb c "-" in
      let s := if Ascii.eqb c "+" || Ascii.eqb c "-" then rest else s in
      let '(un, err) := ParseUint10 s in
      match err with
      | Some (NumError _ _ ErrRange) | None =>
          let cutoff := 2 ^ 63 in
          if negb neg && (un >=? cutoff) then (cutoff - 1, Some (rangeError "ParseInt" s0))
          else if neg && (un >? cutoff) then (- cutoff, Some (rangeError "ParseInt" s0))
          else (if neg then - un else un, None)
      | Some _ => (0, Some (syntaxError "ParseInt" s0))
      end
  end.

(** The digit loop of Atoi's fast path. *)
Fixpoint atoiLoop (s0 : string) (n : Z) (s : string) : Z * option error :=
  match s with
  | EmptyString => (n, None)
  | String c rest =>
      let ch := (byteOf c - 48) mod 256 in
      if ch >? 9 then (0, Some (syntaxError "Atoi" s0))
      else atoiLoop s0 (n * 10 + ch) rest
  end.

(** strconv.Atoi on a 64-bit platform: strings of 1 to 18 bytes take the
    fast path, everything else goes through ParseInt. *)
Definition Atoi (s : string) : Z * option error :=
  let sLen := Z.of_nat (String.length s) in
  if (0 <? sLen) && (sLen <? 19) then
    let s0 := s in
    match s with
    | EmptyString => (0, Some (syntaxError "Atoi" s0))
    | String c rest =>
        let signed := Ascii.eqb c "-" || Ascii.eqb c "+" in
        let s := if signed then rest else s in
        if signed && (Z.of_nat (String.length s) <? 1) then (0, Some (syntaxError "Atoi" s0))
        else
          match atoiLoop s0 0 s with
          | (n, None) => (if Ascii.eqb c "-" then - n else n, None)
          | r => r
          end
    end
  else
    match ParseInt10 s with
    | (i64, Some (NumError _ num kind)) => (i64, Some (NumError "Atoi" num kind))
    | r => r
    end.

End strconv.

(** ** internal/service/identity_config.go *)

Record IdentityConfig : Type := mkIdentityConfig {
  host : string;
  port : Z;
  user : string;
  pass : string
}.

Definition ConfigOpts : Type := IdentityConfig -> IdentityConfig.

Definition WithHost (h : string) : ConfigOpts :=
  fun cfg => {| host := h; port := port cfg; user := user cfg; pass := pass cfg |}.

Definition WithPort (p : Z) : ConfigOpts :=
  fun cfg => {| host := host cfg; port := p; user := user cfg; pass := pass cfg |}.

Definition WithUser (u : string) : ConfigOpts :=
  fun cfg => {| host := host cfg; port := port cfg; user := u; pass := pass cfg |}.

Definition WithPass (p : string) : ConfigOpts :=
  fun cfg => {| host := host cfg; port := port cfg; user := user cfg; pass := p |}.

(** os.Getenv: the value of the variable, or the empty string when it is
    not set. *)
Definition Getenv (environ : gmap string string) (key : string) : string :=
  match environ !! key with
  | Some v => v
  | None => ""
  end.

Definition NewIdentityConfig (environ : gmap string string) (opts : list ConfigOpts)
  : IdentityConfig :=
  let cfg := {| host := "127.0.0.1"; port := 8080; user := "John"; pass := "VMw@re1!" |} in
  (* read host from env *)
  let host_ := Getenv environ "IDM_HOST" in
  let cfg := if negb (String.eqb host_ "")
             then {| host := host_; port := port cfg; user := user cfg; pass := pass cfg |}
             else cfg in
  (* read port from env *)
  let port_ := Getenv environ "IDM_PORT" in
  let cfg := if negb (String.eqb port_ "")
             then {| host := host cfg; port := fst (strconv.Atoi port_);
                     user := user cfg; pass := pass cfg |}
             else cfg in
  (* read user from env *)
  let user_ := Getenv environ "IDM_USER" in
  let cfg := if negb (String.eqb user_ "")
             then {| host := host cfg; port := port cfg; user := user_; pass := pass cfg |}
             else cfg in
  (* read pass from env *)
  let pass_ := Getenv environ "IDM_PASS" in
  let cfg := if negb (String.eqb pass_ "")
             then {| host := host cfg; port := port cfg; user := user cfg; pass := pass_ |}
             else cfg in
  fold_left (fun cfg opt => opt cfg) opts cfg.

(** ** api/v1: the User resource *)

Module v1.

(** Modelled from the spec: the declaration of UserSpec (api/v1) is not
    among the sources; the spec gives Spec = {name, firstname, lastname,
    role, age, password}, and the controller reads exactly these fields. *)
Record UserSpec : Type := mkUserSpec {
  Name : string;
  Password : string;
  Firstname : string;
  Lastname : string;
  Role : string;
  Age : Z
}.

(** Modelled from the spec: the declaration of UserStatus (api/v1) is not
    among the sources; Status = {externalID, state}, read and written by
    the controller as Status.ID and Status.State. *)
Record UserStatus : Type := mkUserStatus {
  ID : string;
  State : string
}.

(** The part of metav1.ObjectMeta the controller touches.  A nil
    DeletionTimestamp is [None]; [Some t] is an instant, [t] seconds after
    the zero time. *)
Record User : Type := mkUser {
  Namespace : string;
  ObjectName : string;
  DeletionTimestamp : option Z;
  Finalizers : list string;
  Spec : UserSpec;
  Status : UserStatus
}.

(** The IsZero method of a metav1.Time pointer: true for nil and for the
    zero time. *)
Definition IsZero (t : option Z) : bool :=
  match t with
  | None => true
  | Some t => t =? 0
  end.

Definition GetFinalizers (u : User) : list string := Finalizers u.

Definition SetFinalizers (u : User) (fs : list string) : User :=
  {| Namespace := Namespace u; ObjectName := ObjectName u;
     DeletionTimestamp := DeletionTimestamp u; Finalizers := fs;
     Spec := Spec u; Status := Status u |}.

Definition SetStatus (u : User) (st : UserStatus) : User :=
  {| Namespace := Namespace u; ObjectName := ObjectName u;
     DeletionTimestamp := DeletionTimestamp u; Finalizers := Finalizers u;
     Spec := Spec u; Status := st |}.

End v1.

(** types.NamespacedName: namespace, then name. *)
Definition NamespacedName : Type := (string * string)%type.

Definition keyOf (u : v1.User) : NamespacedName := (v1.Namespace u, v1.ObjectName u).

(** ** The identity service's wire types *)

Record IdentityUser : Type := mkIdentityUser {
  ID : string;
  Name : string;
  Password : string;
  Firstname : string;
  Lastname : string;
  Role : string;
  Age : Z
}.

Record LoginRequestBody : Type := mkLoginRequestBody {
  loginName : string;
  loginPassword : string
}.

Record LoginResponse : Type := mkLoginResponse {
  Token : string
}.

Record IdentityService : Type := mkIdentityService {
  config : IdentityConfig;
  token : string
}.

Definition NewIdentityService (cfg : IdentityConfig) : IdentityService :=
  {| config := cfg; token := "" |}.

(** ** net/http *)

Record Request : Type := mkRequest {
  Method : string;
  URL : string;
  Body : option string;
  Header : gmap string string
}.

(** [RespBody] is what io.ReadAll(resp.Body) yields. *)
Record Response : Type := mkResponse {
  StatusCode : Z;
  RespBody : Result string
}.

(** (http.Header).Set *)
Definition HeaderSet (req : Request) (k v : string) : Request :=
  {| Method := Method req; URL := URL req; Body := Body req;
     Header := <[k := v]> (Header req) |}.

(** ** The world outside the process *)

(** What the process does that can be seen from outside, in order. *)
Inductive Event : Type :=
| LogInfo (msg : string)
| LogError (e : error) (msg : string)
| ApiGet (key : NamespacedName)
| ApiUpdate (u : v1.User)
| ApiStatusUpdate (u : v1.User)
| HttpDo (req : Request).

(** [store] is the content of the API server for the User resource,
    [trace] the events so far, oldest first. *)
Record World : Type := mkWorld {
  store : gmap NamespacedName v1.User;
  trace : list Event
}.

(** Everything the code takes from its surroundings: the process
    environment, the library functions whose results depend on data the
    code does not inspect (encoding/json, net/url), and the answers of the
    HTTP transport and of the API server, which may depend on all that
    happened before. *)
Record Runtime : Type := mkRuntime {
  environ : gmap string string;
  json_MarshalLogin : LoginRequestBody -> Result string;
  json_MarshalSpec : v1.UserSpec -> Result string;
  json_UnmarshalLogin : string -> Result LoginResponse;
  json_UnmarshalUser : string -> Result IdentityUser;
  url_Parse : string -> option error;
  roundTrip : list Event -> Request -> Result Response;
  getFault : list Event -> NamespacedName -> option error;
  updateFault : list Event -> v1.User -> option error;
  statusUpdateFault : list Event -> v1.User -> option error
}.

(** Computations that read and extend the world. *)
Definition M (A : Type) : Type := World -> A * World.

Definition ret {A : Type} (a : A) : M A := fun w => (a, w).

Definition bind {A B : Type} (m : M A) (k : A -> M B) : M B :=
  fun w => let '(a, w') := m w in k a w'.

Declare Scope go_scope.
Delimit Scope go_scope with go.
Notation "x <- c1 ;; c2" := (bind c1 (fun x => c2))
  (at level 100, c1 at next level, right associativity) : go_scope.
Notation "c1 ;;; c2" := (bind c1 (fun _ => c2))
  (at level 100, right associativity) : go_scope.
Local Open Scope go_scope.

Definition record (e : Event) : M unit :=
  fun w => (tt, {| store := store w; trace := trace w ++ [e] |}).

Definition logInfo (msg : string) : M unit := record (LogInfo msg).
Definition logError (e : error) (msg : string) : M unit := record (LogError e msg).

Section Program.

Variable rt : Runtime.

(** *** The API server, as the controller's client sees it

    A resource with a status subresource: an update of the resource leaves
    the stored status alone, an update of the status leaves everything
    else alone.  Any call may be refused ([getFault], [updateFault],
    [statusUpdateFault]: a conflict, a timeout, ...). *)

(** r.Get *)
Definition Get (key : NamespacedName) : M (Result v1.User) :=
  fun w =>
    let w' := {| store := store w; trace := trace w ++ [ApiGet key] |} in
    match getFault rt (trace w) key with
    | Some e => (Err e, w')
    | None =>
        match store w !! key with
        | Some u => (Ok u, w')
        | None => (Err (StatusError 404 "not found"), w')
        end
    end.

(** r.Update *)
Definition Update (u : v1.User) : M (option error) :=
  fun w =>
    let tr := (trace w ++ [ApiUpdate u])%list in
    match updateFault rt (trace w) u with
    | Some e => (Some e, {| store := store w; trace := tr |})
    | None =>
        match store w !! keyOf u with
        | Some old =>
            (None, {| store := <[keyOf u := v1.SetStatus u (v1.Status old)]> (store w);
                      trace := tr |})
        | None => (Some (StatusError 404 "not found"), {| store := store w; trace := tr |})
        end
    end.

(** r.Status().Update *)
Definition StatusUpdate (u : v1.User) : M (option error) :=
  fun w =>
    let tr := (trace w ++ [ApiStatusUpdate u])%list in
    match statusUpdateFault rt (trace w) u with
    | Some e => (Some e, {| store := store w; trace := tr |})
    | None =>
        match store w !! keyOf u with
        | Some old =>
            (None, {| store := <[keyOf u := v1.SetStatus old (v1.Status u)]> (store w);
                      trace := tr |})
        | None => (Some (StatusError 404 "not found"), {| store := store w; trace := tr |})
        end
    end.

(** *** net/http *)

(** http.NewRequest with one of the constant methods of this program: it
    fails exactly when the URL does not parse. *)
Definition NewRequest (method url : string) (body : option string) : Result Request :=
  match url_Parse rt url with
  | Some e => Err e
  | None => Ok {| Method := method; URL := url; Body := body; Header := ∅ |}
  end.

(** (&http.Client{}).Do *)
Definition Do (req : Request) : M (Result Response) :=
  fun w => (roundTrip rt (trace w) req,
            {| store := store w; trace := trace w ++ [HttpDo req] |}).

(** *** The identity service client *)

(** GetToken: POST /login; the token of the answer is kept in the service. *)
Definition GetToken (s : IdentityService) : M (Result string * IdentityService) :=
  (* prepare request url *)
  let url := "http://" ++ host (config s) ++ ":" ++ strconv.Itoa (port (config s)) ++ "/login" in
  (* prepare request body *)
  let reqBody := {| loginName := user (config s); loginPassword := pass (config s) |} in
  (* encode request body *)
  match json_MarshalLogin rt reqBody with
  | Err err => ret (Err err, s)
  | Ok jsonReqBody =>
      (* prepare request *)
      match NewRequest "POST" url (Some jsonReqBody) with
      | Err err => ret (Err err, s)
      | Ok req =>
          (* make rest api call *)
          resp <- Do req ;;
          match resp with
          | Err err => ret (Err err, s)
          | Ok resp =>
              (* read response body *)
              match RespBody resp with
              | Err err => ret (Err err, s)
              | Ok body =>
                  (* extract the token field from the response body *)
                  match json_UnmarshalLogin rt body with
                  | Err err => ret (Err err, s)
                  | Ok loginResponse =>
                      (* save the token in the service *)
                      let s := {| config := config s; token := Token loginResponse |} in
                      ret (Ok (token s), s)
                  end
              end
          end
      end
  end.

(** CreateUser: POST /users with the spec as body. *)
Definition CreateUser (s : IdentityService) (user : v1.UserSpec) : M (Result IdentityUser) :=
  let url := "http://" ++ host (config s) ++ ":" ++ strconv.Itoa (port (config s)) ++ "/users" in
  match json_MarshalSpec rt user with
  | Err err => ret (Err err)
  | Ok body =>
      match NewRequest "POST" url (Some body) with
      | Err err => ret (Err err)
      | Ok req =>
          let req := HeaderSet req "Authorization" ("Bearer " ++ token s) in
          let req := HeaderSet req "Content-Type" "application/json" in
          resp <- Do req ;;
          match resp with
          | Err err => ret (Err err)
          | Ok resp =>
              match RespBody resp with
              | Err err => ret (Err err)
              | Ok body =>
                  match json_UnmarshalUser rt body with
                  | Err err => ret (Err err)
                  | Ok userResponse => ret (Ok userResponse)
                  end
              end
          end
      end
  end.

(** GetUser: GET /users/<id>. *)
Definition GetUser (s : IdentityService) (userID : string) : M (Result IdentityUser) :=
  let url := "http://" ++ host (config s) ++ ":" ++ strconv.Itoa (port (config s))
             ++ "/users/" ++ userID in
  match NewRequest "GET" url None with
  | Err err => ret (Err err)
  | Ok req =>
      let req := HeaderSet req "Authorization" ("Bearer " ++ token s) in
      let req := HeaderSet req "Accept" "application/json" in
      resp <- Do req ;;
      match resp with
      | Err err => ret (Err err)
      | Ok resp =>
          match RespBody resp with
          | Err err => ret (Err err)
          | Ok body =>
              match json_UnmarshalUser rt body with
              | Err err => ret (Err err)
              | Ok userResponse => ret (Ok userResponse)
              end
          end
      end
  end.

(** DeleteUser: DELETE /users/<id>.  The response is closed unread. *)
Definition DeleteUser (s : IdentityService) (userID : string) : M (option error) :=
  let url := "http://" ++ host (config s) ++ ":" ++ strconv.Itoa (port (config s))
             ++ "/users/" ++ userID in
  match NewRequest "DELETE" url None with
  | Err err => ret (Some err)
  | Ok req =>
      let req := HeaderSet req "Authorization" ("Bearer " ++ token s) in
      resp <- Do req ;;
      match resp with
      | Err err => ret (Some err)
      | Ok _ => ret None
      end
  end.

(** UpdateUser: PUT /users/<id> with the spec as body. *)
Definition UpdateUser (s : IdentityService) (userID : string) (user : v1.UserSpec)
  : M (Result IdentityUser) :=
  let url := "http://" ++ host (config s) ++ ":" ++ strconv.Itoa (port (config s))
             ++ "/users/" ++ userID in
  match json_MarshalSpec rt user with
  | Err err => ret (Err err)
  | Ok body =>
      match NewRequest "PUT" url (Some body) with
      | Err err => ret (Err err)
      | Ok req =>
          let req := HeaderSet req "Authorization" ("Bearer " ++ token s) in
          let req := HeaderSet req "Content-Type" "application/json" in
          resp <- Do req ;;
          match resp with
          | Err err => ret (Err err)
          | Ok resp =>
              match RespBody resp with
              | Err err => ret (Err err)
              | Ok body =>
                  match json_UnmarshalUser rt body with
                  | Err err => ret (Err err)
                  | Ok userResponse => ret (Ok userResponse)
                  end
              end
          end
      end
  end.

End Program.

(** ** The User controller *)

Module ctrl.
(** ctrl.Result; [Result{}] is [Zero]. *)
Record Result : Type := mkResult {
  Requeue : bool;
  RequeueAfter : Z
}.
Definition Zero : Result := {| Requeue := false; RequeueAfter := 0 |}.
End ctrl.

Definition userFinalizer : string := "micze.io/user-finalizer".

Fixpoint containsString (slice : list string) (s : string) : bool :=
  match slice with
  | [] => false
  | item :: rest => if String.eqb item s then true else containsString rest s
  end.

Fixpoint removeString (slice : list string) (s : string) : list string :=
  match slice with
  | [] => []
  | item :: rest =>
      if negb (String.eqb item s) then item :: removeString rest s
      else removeString rest s
  end.

(** The comparison of Reconcile between the external user and the spec:
    true when one of name, firstname, lastname, role, age differs. *)
Definition specDiffers (extUser : IdentityUser) (spec : v1.UserSpec) : bool :=
  negb (String.eqb (Name extUser) (v1.Name spec))
  || negb (String.eqb (Firstname extUser) (v1.Firstname spec))
  || negb (String.eqb (Lastname extUser) (v1.Lastname spec))
  || negb (String.eqb (Role extUser) (v1.Role spec))
  || negb (Age extUser =? v1.Age spec).

Section Controller.

Variable rt : Runtime.

(** finalizeUser removes object from external system *)
Definition finalizeUser (user : v1.User) : M (option error) :=
  let cfg := NewIdentityConfig (environ rt) [] in
  let svc := NewIdentityService cfg in
  r <- GetToken rt svc ;;
  match r with
  | (Err err, _) => ret (Some err)
  | (Ok _, svc) =>
      err <- DeleteUser rt svc (v1.ID (v1.Status user)) ;;
      match err with
      | Some err => ret (Some err)
      | None => ret None
      end
  end.

(** createUser creates a new user in external system *)
Definition createUser (user : v1.User) : M (Result IdentityUser) :=
  let cfg := NewIdentityConfig (environ rt) [] in
  let svc := NewIdentityService cfg in
  r <- GetToken rt svc ;;
  match r with
  | (Err err, _) => ret (Err err)
  | (Ok _, svc) =>
      usr <- CreateUser rt svc (v1.Spec user) ;;
      match usr with
      | Err err => ret (Err err)
      | Ok usr => ret (Ok usr)
      end
  end.

(** getUser gets an existing user from external system *)
Definition getUser (id : string) : M (Result IdentityUser) :=
  let cfg := NewIdentityConfig (environ rt) [] in
  let svc := NewIdentityService cfg in
  r <- GetToken rt svc ;;
  match r with
  | (Err err, _) => ret (Err err)
  | (Ok _, svc) =>
      usr <- GetUser rt svc id ;;
      match usr with
      | Err err => ret (Err err)
      | Ok usr => ret (Ok usr)
      end
  end.

(** updateUser updates an existing user in external system *)
Definition updateUser (user : v1.User) (extUser : IdentityUser) : M (Result IdentityUser) :=
  let cfg := NewIdentityConfig (environ rt) [] in
  let svc := NewIdentityService cfg in
  r <- GetToken rt svc ;;
  match r with
  | (Err err, _) => ret (Err err)
  | (Ok _, svc) =>
      usr <- UpdateUser rt svc (ID extUser) (v1.Spec user) ;;
      match usr with
      | Err err => ret (Err err)
      | Ok usr => ret (Ok usr)
      end
  end.

Definition addFinalizer (user : v1.User) : M (option error) :=
  logInfo "Adding finalizer" ;;;
  let user := v1.SetFinalizers user (v1.GetFinalizers user ++ [userFinalizer])%list in
  Update rt user.

Definition Reconcile (req : NamespacedName) : M (ctrl.Result * option error) :=
  logInfo "Start reconciliation" ;;;
  (* Fetch the User instance *)
  r <- Get rt req ;;
  match r with
  | Err err =>
      if IsNotFound err then
        logInfo "User resource not found. Ignoring since object must be deleted" ;;;
        ret (ctrl.Zero, None)
      else
        logError err "Failed to get User" ;;;
        ret (ctrl.Zero, None)
  | Ok user =>
      (* Check if the instance is marked to be deleted *)
      if negb (v1.IsZero (v1.DeletionTimestamp user)) then
        if containsString (v1.GetFinalizers user) userFinalizer then
          err <- finalizeUser user ;;
          match err with
          | Some err => ret (ctrl.Zero, Some err)
          | None =>
              let user := v1.SetFinalizers user
                            (removeString (v1.GetFinalizers user) userFinalizer) in
              err <- Update rt user ;;
              match err with
              | Some err => ret (ctrl.Zero, Some err)
              | None => ret (ctrl.Zero, None)
              end
          end
        else ret (ctrl.Zero, None)
      else
        (* If ID field is not set, create a new user *)
        if String.eqb (v1.ID (v1.Status user)) "" then
          logInfo "Creating user" ;;;
          extUser <- createUser user ;;
          match extUser with
          | Err err => ret (ctrl.Zero, Some err)
          | Ok extUser =>
              (* Update the user status with the ID and State *)
              let user := v1.SetStatus user
                            {| v1.ID := ID extUser; v1.State := "Created" |} in
              err <- StatusUpdate rt user ;;
              match err with
              | Some err =>
                  logInfo "Failed to update user status" ;;;
                  ret (ctrl.Zero, Some err)
              | None =>
                  logInfo "User created" ;;;
                  ret (ctrl.Zero, None)
              end
          end
        else
          (* Get the external user *)
          extUser <- getUser (v1.ID (v1.Status user)) ;;
          match extUser with
          | Err err => ret (ctrl.Zero, Some err)
          | Ok extUser =>
              (* compare fields of the external user with the spec fields *)
              err <- (if specDiffers extUser (v1.Spec user) then
                        logInfo "Updating user" ;;;
                        r <- updateUser user extUser ;;
                        match r with
                        | Err err => ret (Some err)
                        | Ok _ => ret None
                        end
                      else ret None) ;;
              match err with
              | Some err => ret (ctrl.Zero, Some err)
              | None =>
                  (* Add finalizer for this CR *)
                  err <- (if negb (containsString (v1.GetFinalizers user) userFinalizer)
                          then addFinalizer user
                          else ret None) ;;
                  match err with
                  | Some err => ret (ctrl.Zero, Some err)
                  | None =>
                      logInfo "Reconciliation finished" ;;;
                      ret (ctrl.Zero, None)
                  end
              end
          end
  end.

End Controller.

(** ** Concrete surroundings, for running the program *)

Module Scenario.

(** A toy wire format: a login answer is the token itself, a user answer
    is a key of the table [users]; the empty body does not decode. *)
Definition jsonEOF : error := LibError "encoding/json" "unexpected end of JSON input".

Definition unmarshalLogin (body : string) : Result LoginResponse :=
  if String.eqb body "" then Err jsonEOF else Ok {| Token := body |}.

Definition unmarshalUser (users : gmap string IdentityUser) (body : string)
  : Result IdentityUser :=
  match users !! body with
  | Some u => Ok u
  | None => Err jsonEOF
  end.

Definition marshalSpec (spec : v1.UserSpec) : Result string :=
  Ok (v1.Name spec ++ "," ++ v1.Role spec ++ "," ++ v1.Password spec).

Definition marshalLogin (b : LoginRequestBody) : Result string :=
  Ok (loginName b ++ ":" ++ loginPassword b).

(** A runtime with the default process environment, URLs that always
    parse, an API server without faults unless [getF] says otherwise, and
    the HTTP answers [serve]. *)
Definition runtime (serve : list Event -> Request -> Result Response)
           (users : gmap string IdentityUser)
           (getF : list Event -> NamespacedName -> option error) : Runtime :=
  {| environ := ∅;
     json_MarshalLogin := marshalLogin;
     json_MarshalSpec := marshalSpec;
     json_UnmarshalLogin := unmarshalLogin;
     json_UnmarshalUser := unmarshalUser users;
     url_Parse := fun _ => None;
     roundTrip := serve;
     getFault := getF;
     updateFault := fun _ _ => None;
     statusUpdateFault := fun _ _ => None |}.

Definition noFault : list Event -> NamespacedName -> option error := fun _ _ => None.

Definition isLogin (req : Request) : bool :=
  String.eqb (Method req) "POST" && String.eqb (URL req) "http://127.0.0.1:8080/login".

(** A service that answers every request with status 200; user answers
    carry the body ["u"]. *)
Definition healthy : list Event -> Request -> Result Response :=
  fun _ req =>
    if isLogin req then Ok {| StatusCode := 200; RespBody := Ok "tok" |}
    else Ok {| StatusCode := 200; RespBody := Ok "u" |}.

(** A service whose login works and that answers everything else with
    status 500 and an empty body. *)
Definition failing500 : list Event -> Request -> Result Response :=
  fun _ req =>
    if isLogin req then Ok {| StatusCode := 200; RespBody := Ok "tok" |}
    else Ok {| StatusCode := 500; RespBody := Ok "" |}.

(** A service whose login works and whose other calls fail in transport. *)
Definition unreachable : error := LibError "net/http" "connection refused".

Definition loginOnly : list Event -> Request -> Result Response :=
  fun _ req =>
    if isLogin req then Ok {| StatusCode := 200; RespBody := Ok "tok" |}
    else Err unreachable.

(** A service that cannot be reached at all. *)
Definition down : list Event -> Request -> Result Response :=
  fun _ _ => Err unreachable.

Definition spec_a_x : v1.UserSpec :=
  {| v1.Name := "a"; v1.Password := "secret"; v1.Firstname := ""; v1.Lastname := "";
     v1.Role := "x"; v1.Age := 0 |}.

Definition ext (id role : string) : IdentityUser :=
  {| ID := id; Name := "a"; Password := ""; Firstname := ""; Lastname := "";
     Role := role; Age := 0 |}.

Definition key : NamespacedName := ("default", "alice").

Definition record (deleting : bool) (finalizers : list string) (id state : string) : v1.User :=
  {| v1.Namespace := "default"; v1.ObjectName := "alice";
     v1.DeletionTimestamp := if deleting then Some 1700000000 else None;
     v1.Finalizers := finalizers;
     v1.Spec := spec_a_x;
     v1.Status := {| v1.ID := id; v1.State := state |} |}.

Definition world (u : v1.User) : World := {| store := {[ key := u ]}; trace := [] |}.

End Scenario.

(** * Vocabulary of the properties *)

(** What the configuration takes for a text field: the variable when it is
    set and not empty, the default otherwise. *)
Definition fromEnv (environ : gmap string string) (key default : string) : string :=
  match environ !! key with
  | Some v => if String.eqb v "" then default else v
  | None => default
  end.

(** The same for the port, whose variable is read through strconv.Atoi. *)
Definition portFromEnv (environ : gmap string string) : Z :=
  match environ !! "IDM_PORT" with
  | Some v => if String.eqb v "" then 8080 else fst (strconv.Atoi v)
  | None => 8080
  end.

(** The text is an optional sign followed by one or more decimal digits. *)
Definition isDigit (c : ascii) : bool :=
  (48 <=? strconv.byteOf c) && (strconv.byteOf c <=? 57).

Fixpoint allDigits (s : string) : bool :=
  match s with
  | EmptyString => true
  | String c rest => isDigit c && allDigits rest
  end.

Definition isDecimal (s : string) : bool :=
  match s with
  | EmptyString => false
  | String c rest =>
      if Ascii.eqb c "-" || Ascii.eqb c "+"
      then negb (String.eqb rest "") && allDigits rest
      else allDigits s
  end.

(** The URL of [path] on the configured service. *)
Definition endpoint (cfg : IdentityConfig) (path : string) : string :=
  "http://" ++ host cfg ++ ":" ++ strconv.Itoa (port cfg) ++ path.

(** The service every controller helper builds: configuration from the
    environment, no options, no token yet. *)
Definition freshService (rt : Runtime) : IdentityService :=
  NewIdentityService (NewIdentityConfig (environ rt) []).

Definition isHttp (e : Event) : bool :=
  match e with
  | HttpDo _ => true
  | _ => false
  end.

Definition isWrite (e : Event) : bool :=
  match e with
  | ApiUpdate _ | ApiStatusUpdate _ => true
  | _ => false
  end.

Ltac go_unfold :=
  unfold bind, ret, logInfo, logError, record, Do, NewRequest in *.

Ltac go_cases :=
  repeat match goal with
         | H : context [match ?x with _ => _ end] |- _ =>
             let E := fresh "E" in destruct x eqn:E
         end.

Section HelperVocabulary.

Variable rt : Runtime.

(** A request to the login endpoint of the configured service. *)
Definition loginRequest (req : Request) : Prop :=
  Method req = "POST" /\ URL req = endpoint (NewIdentityConfig (environ rt) []) "/login".

(** A request with method [m] for the user [id] of the configured service. *)
Definition userRequest (m id : string) (req : Request) : Prop :=
  Method req = m /\ URL req = endpoint (NewIdentityConfig (environ rt) []) ("/users/" ++ id).

(** The events a helper adds: nothing, a login alone, or a login followed
    by one request [P]; the two requests are there whenever [ok] holds. *)
Definition loginThen (P : Request -> Prop) (ok : Prop) (evs : list Event) : Prop :=
  (evs = [] /\ ~ ok)
  \/ (exists lreq, evs = [HttpDo lreq] /\ loginRequest lreq /\ ~ ok)
  \/ (exists lreq req, evs = [HttpDo lreq; HttpDo req] /\ loginRequest lreq /\ P req).

Definition isOk {A : Type} (r : Result A) : Prop := exists a, r = Ok a.

(** A request with method [m] to [url] whose body is the encoded [spec]. *)
Definition specRequest (m url : string) (spec : v1.UserSpec) (req : Request) : Prop :=
  Method req = m /\ URL req = url
  /\ exists body, json_MarshalSpec rt spec = Ok body /\ Body req = Some body.

End HelperVocabulary.

(** The world in which the fetch of Reconcile runs. *)
Definition started (w : World) : World := snd (logInfo "Start reconciliation" w).

(** The request DeleteUser sends. *)
Definition deleteRequest (s : IdentityService) (userID : string) : Request :=
  HeaderSet {| Method := "DELETE"; URL := endpoint (config s) ("/users/" ++ userID);
               Body := None; Header := ∅ |}
            "Authorization" ("Bearer " ++ token s).

(** The answer is neither a 2xx nor a not-found. *)
Definition rejected (resp : Response) : Prop :=
  ~ (200 <= StatusCode resp < 300) /\ StatusCode resp <> 404.

(** The reading of the spec: an answer that is neither 2xx nor not-found
    makes DeleteUser return an error. *)
Definition DeleteUser_surfaces_rejection : Prop :=
  forall rt s id w resp,
    url_Parse rt (endpoint (config s) ("/users/" ++ id)) = None ->
    roundTrip rt (trace w) (deleteRequest s id) = Ok resp ->
    rejected resp ->
    fst (DeleteUser rt s id w) <> None.

(** Every stored record with an external id holds the finalizer marker. *)
Definition markerInvariant (s : gmap NamespacedName v1.User) : Prop :=
  forall k u, s !! k = Some u ->
              v1.ID (v1.Status u) <> "" -> In userFinalizer (v1.Finalizers u).

(** The reading of the spec: Reconcile never leaves a store in which a
    record has an external id and no marker. *)
Definition Reconcile_keeps_markerInvariant : Prop :=
  forall rt req w,
    markerInvariant (store w) -> markerInvariant (store (snd (Reconcile rt req w))).

(** The four functional options of the configuration, as data. *)
Inductive Setting : Type :=
| SetHost (h : string)
| SetPort (p : Z)
| SetUser (u : string)
| SetPass (p : string).

Definition optionOf (o : Setting) : ConfigOpts :=
  match o with
  | SetHost h => WithHost h
  | SetPort p => WithPort p
  | SetUser u => WithUser u
  | SetPass p => WithPass p
  end.

(** The value the last setting picked by [pick] gives, [d] when there is
    none. *)
Definition lastSetting {A : Type} (pick : Setting -> option A) (os : list Setting) (d : A) : A :=
  fold_left (fun acc o => match pick o with Some a => a | None => acc end) os d.

Definition pickHost (o : Setting) : option string :=
  match o with SetHost h => Some h | _ => None end.
Definition pickPort (o : Setting) : option Z :=
  match o with SetPort p => Some p | _ => None end.
Definition pickUser (o : Setting) : option string :=
  match o with SetUser u => Some u | _ => None end.
Definition pickPass (o : Setting) : option string :=
  match o with SetPass p => Some p | _ => None end.

(** The runtime [rt] with the answers of the HTTP transport replaced. *)
Definition withRoundTrip (rt : Runtime)
           (answers : list Event -> Request -> Result Response) : Runtime :=
  {| environ := environ rt;
     json_MarshalLogin := json_MarshalLogin rt;
     json_MarshalSpec := json_MarshalSpec rt;
     json_UnmarshalLogin := json_UnmarshalLogin rt;
     json_UnmarshalUser := json_UnmarshalUser rt;
     url_Parse := url_Parse rt;
     roundTrip := answers;
     getFault := getFault rt;
     updateFault := updateFault rt;
     statusUpdateFault := statusUpdateFault rt |}.

(** An answer of the transport without its status code. *)
Definition bodyOnly (r : Result Response) : Result (Result string) :=
  match r with
  | Ok resp => Ok (RespBody resp)
  | Err e => Err e
  end.

(** The numbers of API-server writes and of HTTP requests among events. *)
Definition writes (evs : list Event) : nat := length (List.filter isWrite evs).
Definition requests (evs : list Event) : nat := length (List.filter isHttp evs).

(** From [w] to [w'] the trace has grown by at most [nw] writes and [nh]
    requests. *)
Definition reaches (w w' : World) (nw nh : nat) : Prop :=
  exists evs, trace w' = (trace w ++ evs)%list
              /\ (writes evs <= nw)%nat /\ (requests evs <= nh)%nat.

(** From [w] to [w'] the trace has grown, and every request sent on the
    way satisfies [Q]. *)
Definition sendsOnly (w w' : World) (Q : Request -> Prop) : Prop :=
  exists evs, trace w' = (trace w ++ evs)%list
              /\ forall r, In (HttpDo r) evs -> Q r.

(** The request carries the bearer token [tok]. *)
Definition authorizedBy (tok : string) (r : Request) : Prop :=
  Header r !! "Authorization" = Some ("Bearer " ++ tok).

(** The requests Reconcile may send for the record [u]: a login; for a
    record being deleted that holds the marker, the DELETE of its external
    id; for a record without external id, the POST of its spec; for a
    record with one, the GET of that id and a PUT of the spec. *)
Definition allowedRequest (rt : Runtime) (u : v1.User) (r : Request) : Prop :=
  let cfg := NewIdentityConfig (environ rt) [] in
  let id := v1.ID (v1.Status u) in
  loginRequest rt r
  \/ (v1.IsZero (v1.DeletionTimestamp u) = false /\ In userFinalizer (v1.Finalizers u)
      /\ userRequest rt "DELETE" id r)
  \/ (v1.IsZero (v1.DeletionTimestamp u) = true /\ id = ""
      /\ specRequest rt "POST" (endpoint cfg "/users") (v1.Spec u) r)
  \/ (v1.IsZero (v1.DeletionTimestamp u) = true /\ id <> ""
      /\ (userRequest rt "GET" id r
          \/ exists extID, specRequest rt "PUT" (endpoint cfg ("/users/" ++ extID))
                             (v1.Spec u) r)).

(** The reading of the spec for the port: whenever IDM_PORT is set to a
    non-empty text that is not an integer, the configured port is 0. *)
Definition port_zero_for_non_integers : Prop :=
  forall (environ : gmap string string) (s : string),
    environ !! "IDM_PORT" = Some s ->
    s <> "" ->
    isDecimal s = false ->
    port (NewIdentityConfig environ []) = 0.

(** * Properties *)

(** ** Runs of the model *)

Example Atoi_8081 : strconv.Atoi "8081" = (8081, None).
Proof. reflexivity. Qed.
Example Atoi_neg : strconv.Atoi "-17" = (-17, None).
Proof. reflexivity. Qed.
Example Atoi_abc : strconv.Atoi "abc" = (0, Some (NumError "Atoi" "abc" ErrSyntax)).
Proof. reflexivity. Qed.
Example Atoi_big :
  strconv.Atoi "99999999999999999999" = (2 ^ 63 - 1, Some (NumError "Atoi" "99999999999999999999" ErrRange)).
Proof. vm_compute. reflexivity. Qed.
Example Itoa_8080 : strconv.Itoa 8080 = "8080".
Proof. reflexivity. Qed.
Example cfg_default : NewIdentityConfig ∅ [] = mkIdentityConfig "127.0.0.1" 8080 "John" "VMw@re1!".
Proof. vm_compute. reflexivity. Qed.
Example cfg_env :
  NewIdentityConfig {[ "IDM_PORT" := "9090" ]} [] = mkIdentityConfig "127.0.0.1" 9090 "John" "VMw@re1!".
Proof. vm_compute. reflexivity. Qed.

(** ** Configuration *)

Lemma atoiLoop_cases s0 s n :
  (exists m, strconv.atoiLoop s0 n s = (m, None))
  \/ strconv.atoiLoop s0 n s = (0, Some (strconv.syntaxError "Atoi" s0)).
Proof.
  revert n. induction s as [|c rest IH]; intros n; simpl.
  - left. eauto.
  - destruct (_ >? 9); [right; reflexivity | apply IH].
Qed.

Lemma parseUintLoop_cases s0 s n :
  (exists m, strconv.parseUintLoop s0 n s = (m, None))
  \/ strconv.parseUintLoop s0 n s = (strconv.maxUint64, Some (strconv.rangeError "ParseUint" s0))
  \/ strconv.parseUintLoop s0 n s = (0, Some (strconv.syntaxError "ParseUint" s0)).
Proof.
  revert n. induction s as [|c rest IH]; intros n; cbn [strconv.parseUintLoop].
  - left. eauto.
  - cbv zeta. destruct (_ && _); [|right; right; reflexivity].
    destruct (n >=? _); [right; left; reflexivity|].
    destruct (_ || _); [right; left; reflexivity|]. apply IH.
Qed.

Lemma ParseUint10_cases s :
  (exists m, strconv.ParseUint10 s = (m, None))
  \/ strconv.ParseUint10 s = (strconv.maxUint64, Some (strconv.rangeError "ParseUint" s))
  \/ strconv.ParseUint10 s = (0, Some (strconv.syntaxError "ParseUint" s)).
Proof.
  unfold strconv.ParseUint10. destruct (String.eqb s "").
  - right; right; reflexivity.
  - apply parseUintLoop_cases.
Qed.

Lemma ParseInt10_syntax_zero s fn num :
  snd (strconv.ParseInt10 s) = Some (NumError fn num ErrSyntax) ->
  fst (strconv.ParseInt10 s) = 0.
Proof.
  unfold strconv.ParseInt10. destruct s as [|c rest]; [reflexivity|].
  cbv zeta.
  destruct (ParseUint10_cases (if Ascii.eqb c "+" || Ascii.eqb c "-" then rest else String c rest))
    as [[m ->]|[-> | ->]]; cbn -[Z.pow]; try reflexivity;
    repeat (destruct (_ && _); cbn -[Z.pow]; try discriminate);
    intros; reflexivity.
Qed.

(** Whenever Atoi reports a syntax error, the number it returns is 0. *)
Lemma Atoi_syntax_zero s fn num :
  snd (strconv.Atoi s) = Some (NumError fn num ErrSyntax) ->
  fst (strconv.Atoi s) = 0.
Proof.
  unfold strconv.Atoi. cbv zeta. destruct (_ && _).
  - destruct s as [|c rest]; [reflexivity|].
    destruct (_ && _); [reflexivity|].
    destruct (atoiLoop_cases (String c rest) (if Ascii.eqb c "-" || Ascii.eqb c "+" then rest else String c rest) 0)
      as [[m ->] | ->]; cbn; [discriminate | reflexivity].
  - destruct (strconv.ParseInt10 s) as [i64 [e|]] eqn:E.
    + destruct e as [code msg | f n k | pkg msg]; cbn; intros H; try discriminate.
      injection H as _ _ ->.
      pose proof (ParseInt10_syntax_zero s f n) as P. rewrite E in P.
      apply P. reflexivity.
    + cbn. discriminate.
Qed.

Lemma atoi_byte_test c :
  ((strconv.byteOf c - 48) mod 256 >? 9) = negb (isDigit c).
Proof. destruct c as [[] [] [] [] [] [] [] []]; reflexivity. Qed.

Lemma atoiLoop_rejects s0 s n :
  allDigits s = false ->
  strconv.atoiLoop s0 n s = (0, Some (strconv.syntaxError "Atoi" s0)).
Proof.
  revert n. induction s as [|c rest IH]; intros n; simpl; [discriminate|].
  rewrite atoi_byte_test. destruct (isDigit c); simpl; [apply IH | reflexivity].
Qed.

(** On the fast path (fewer than 19 bytes) Atoi reports a syntax error for
    exactly the texts that are not an optionally signed run of digits. *)
Lemma Atoi_rejects_short s :
  (String.length s < 19)%nat -> isDecimal s = false ->
  strconv.Atoi s = (0, Some (strconv.syntaxError "Atoi" s)).
Proof.
  intros Hlen Hdec. destruct s as [|c rest]; [reflexivity|].
  unfold strconv.Atoi. cbv zeta.
  replace ((0 <? Z.of_nat (String.length (String c rest)))
           && (Z.of_nat (String.length (String c rest)) <? 19)) with true.
  2:{ symmetry. apply andb_true_iff. split; apply Z.ltb_lt; simpl String.length in *; lia. }
  unfold isDecimal in Hdec.
  destruct (Ascii.eqb c "-") eqn:Em, (Ascii.eqb c "+") eqn:Ep; cbn [orb andb] in *.
  all: try (destruct rest as [|c' rest']; [reflexivity|];
            cbn [String.eqb negb andb] in Hdec;
            replace (Z.of_nat (String.length (String c' rest')) <? 1) with false
              by (symmetry; apply Z.ltb_ge; simpl String.length; lia);
            rewrite (atoiLoop_rejects _ _ _ Hdec); reflexivity).
  rewrite (atoiLoop_rejects _ _ _ Hdec). reflexivity.
Qed.

(** NewIdentityConfig is the options folded over the configuration read
    from the environment. *)
Lemma NewIdentityConfig_fold (environ : gmap string string) (opts : list ConfigOpts) :
  NewIdentityConfig environ opts
  = fold_left (fun cfg opt => opt cfg) opts
      {| host := fromEnv environ "IDM_HOST" "127.0.0.1";
         port := portFromEnv environ;
         user := fromEnv environ "IDM_USER" "John";
         pass := fromEnv environ "IDM_PASS" "VMw@re1!" |}.
Proof.
  unfold NewIdentityConfig, Getenv, fromEnv, portFromEnv. f_equal.
  destruct (environ !! "IDM_HOST") as [h|]; [destruct (String.eqb h "") eqn:Eh|];
  (destruct (environ !! "IDM_PORT") as [p|]; [destruct (String.eqb p "") eqn:Ep|]);
  (destruct (environ !! "IDM_USER") as [u|]; [destruct (String.eqb u "") eqn:Eu|]);
  (destruct (environ !! "IDM_PASS") as [q|]; [destruct (String.eqb q "") eqn:Eq|]);
  cbn; rewrite ?Eh, ?Ep, ?Eu, ?Eq; reflexivity.
Qed.

(** C9: NewIdentityConfig takes each of host, port, user and pass from its
    environment variable (IDM_HOST, IDM_PORT, IDM_USER, IDM_PASS) when that
    is set and not empty, the port through strconv.Atoi, and from the
    built-in defaults "127.0.0.1", 8080, "John", "VMw@re1!" otherwise; the
    functional options are then applied in order, so that a trailing option
    overrides both the variable and the default. *)
Theorem NewIdentityConfig_resolution (environ : gmap string string) (opts : list ConfigOpts) :
  NewIdentityConfig environ opts
  = fold_left (fun cfg opt => opt cfg) opts
      {| host := fromEnv environ "IDM_HOST" "127.0.0.1";
         port := portFromEnv environ;
         user := fromEnv environ "IDM_USER" "John";
         pass := fromEnv environ "IDM_PASS" "VMw@re1!" |}
  /\ (forall h, host (NewIdentityConfig environ (opts ++ [WithHost h])) = h)
  /\ (forall p, port (NewIdentityConfig environ (opts ++ [WithPort p])) = p)
  /\ (forall u, user (NewIdentityConfig environ (opts ++ [WithUser u])) = u)
  /\ (forall p, pass (NewIdentityConfig environ (opts ++ [WithPass p])) = p).
Proof.
  split; [apply NewIdentityConfig_fold|].
  unfold NewIdentityConfig.
  repeat split; intros; rewrite fold_left_app; reflexivity.
Qed.

(** Twenty nines overflow the digit loop of ParseUint before the trailing
    letter is looked at: Atoi answers with a range error and the largest
    int, and that is the port. *)
Lemma NewIdentityConfig_port_saturates : ~ port_zero_for_non_integers.
Proof.
  intros H.
  specialize (H {[ "IDM_PORT" := "99999999999999999999x" ]} "99999999999999999999x").
  assert (Hp : port (NewIdentityConfig {[ "IDM_PORT" := "99999999999999999999x" ]} [])
               = 9223372036854775807) by (vm_compute; reflexivity).
  rewrite Hp in H. discriminate H; [reflexivity | discriminate | reflexivity].
Qed.

(** C10, as the code has it: when IDM_PORT is set to a non-empty text for
    which strconv.Atoi reports a syntax error, as it does for every text of
    fewer than 19 bytes that is not an optionally signed run of decimal
    digits ("abc"), the error is dropped and the port of the configuration
    is 0 before the options run: neither the default 8080 is kept nor is
    anything reported. *)
Theorem NewIdentityConfig_port_not_integer
        (environ : gmap string string) (s : string) :
  environ !! "IDM_PORT" = Some s ->
  s <> "" ->
  snd (strconv.Atoi s) = Some (strconv.syntaxError "Atoi" s)
  \/ (isDecimal s = false /\ (String.length s < 19)%nat) ->
  port (NewIdentityConfig environ []) = 0
  /\ exists cfg, port cfg = 0
       /\ forall opts, NewIdentityConfig environ opts = fold_left (fun c o => o c) opts cfg.
Proof.
  intros Henv Hne Hbad.
  assert (Hsyn : snd (strconv.Atoi s) = Some (strconv.syntaxError "Atoi" s)).
  { destruct Hbad as [Hsyn | [Hdec Hlen]]; [exact Hsyn|].
    rewrite (Atoi_rejects_short s Hlen Hdec). reflexivity. }
  assert (Hp : portFromEnv environ = 0).
  { unfold portFromEnv. rewrite Henv.
    destruct (String.eqb_spec s ""); [contradiction|].
    eapply Atoi_syntax_zero. exact Hsyn. }
  split.
  - rewrite NewIdentityConfig_fold. exact Hp.
  - eexists. split; [|intros opts; apply NewIdentityConfig_fold]. exact Hp.
Qed.

Lemma NewIdentityConfig_port_not_integer_witness :
  port (NewIdentityConfig {[ "IDM_PORT" := "abc" ]} []) = 0.
Proof.
  apply (NewIdentityConfig_port_not_integer {[ "IDM_PORT" := "abc" ]} "abc").
  - reflexivity.
  - discriminate.
  - right. split; [reflexivity | simpl; lia].
Defined.

(** ** The identity service client *)

Section ClientFacts.

Variable rt : Runtime.

Lemma GetToken_inv s w r s' w' :
  GetToken rt s w = (r, s', w') ->
  store w' = store w /\ config s' = config s
  /\ ((exists e, r = Err e /\ w' = w /\ s' = s)
      \/ (exists req, trace w' = (trace w ++ [HttpDo req])%list
                      /\ Method req = "POST"
                      /\ URL req = endpoint (config s) "/login"
                      /\ forall tok, r = Ok tok -> token s' = tok)).
Proof.
  unfold GetToken, endpoint. go_unfold. intros H. go_cases; simplify_eq; cbn.
  all: split; [reflexivity|]; split; [reflexivity|].
  all: try (left; eexists; repeat split; reflexivity).
  all: right; eexists; repeat split; intros; simplify_eq; reflexivity.
Qed.

Lemma DeleteUser_inv s id w r w' :
  DeleteUser rt s id w = (r, w') ->
  store w' = store w
  /\ ((exists e, r = Some e /\ w' = w /\ url_Parse rt (endpoint (config s) ("/users/" ++ id)) = Some e)
      \/ (exists req, trace w' = (trace w ++ [HttpDo req])%list
                      /\ Method req = "DELETE"
                      /\ URL req = endpoint (config s) ("/users/" ++ id)
                      /\ match roundTrip rt (trace w) req with
                         | Ok _ => r = None
                         | Err e => r = Some e
                         end)).
Proof.
  unfold DeleteUser, endpoint. go_unfold. intros H. go_cases; simplify_eq; cbn.
  all: split; [reflexivity|].
  all: try (left; eexists; repeat split; reflexivity).
  all: right; eexists; repeat split; cbn;
    match goal with E : roundTrip _ _ _ = _ |- _ => rewrite E end; reflexivity.
Qed.

Lemma CreateUser_inv s spec w r w' :
  CreateUser rt s spec w = (r, w') ->
  store w' = store w
  /\ ((exists e, r = Err e /\ w' = w)
      \/ (exists req body, trace w' = (trace w ++ [HttpDo req])%list
                           /\ Method req = "POST"
                           /\ URL req = endpoint (config s) "/users"
                           /\ json_MarshalSpec rt spec = Ok body
                           /\ Body req = Some body)).
Proof.
  unfold CreateUser, endpoint. go_unfold. intros H. go_cases; simplify_eq; cbn.
  all: split; [reflexivity|].
  all: try (left; eexists; split; reflexivity).
  all: right; eexists _, _; repeat split; reflexivity.
Qed.

Lemma UpdateUser_inv s id spec w r w' :
  UpdateUser rt s id spec w = (r, w') ->
  store w' = store w
  /\ ((exists e, r = Err e /\ w' = w)
      \/ (exists req body, trace w' = (trace w ++ [HttpDo req])%list
                           /\ Method req = "PUT"
                           /\ URL req = endpoint (config s) ("/users/" ++ id)
                           /\ json_MarshalSpec rt spec = Ok body
                           /\ Body req = Some body)).
Proof.
  unfold UpdateUser, endpoint. go_unfold. intros H. go_cases; simplify_eq; cbn.
  all: split; [reflexivity|].
  all: try (left; eexists; split; reflexivity).
  all: right; eexists _, _; repeat split; reflexivity.
Qed.

Lemma GetUser_inv s id w r w' :
  GetUser rt s id w = (r, w') ->
  store w' = store w
  /\ ((exists e, r = Err e /\ w' = w)
      \/ (exists req, trace w' = (trace w ++ [HttpDo req])%list
                      /\ Method req = "GET"
                      /\ URL req = endpoint (config s) ("/users/" ++ id)
                      /\ forall ext, r = Ok ext ->
                           exists resp body, roundTrip rt (trace w) req = Ok resp
                                             /\ RespBody resp = Ok body
                                             /\ json_UnmarshalUser rt body = Ok ext)).
Proof.
  unfold GetUser, endpoint. go_unfold. intros H. go_cases; simplify_eq; cbn.
  all: split; [reflexivity|].
  all: try (left; eexists; split; reflexivity).
  all: right; eexists; repeat split; intros; simplify_eq; eauto.
Qed.

End ClientFacts.

(** ** The controller's helpers *)

Section HelperFacts.

Variable rt : Runtime.

Lemma finalizeUser_inv u w r w' :
  finalizeUser rt u w = (r, w') ->
  store w' = store w
  /\ exists evs, trace w' = (trace w ++ evs)%list
                 /\ loginThen rt (userRequest rt "DELETE" (v1.ID (v1.Status u))) (r = None) evs.
Proof.
  unfold finalizeUser, bind, ret. intros H.
  destruct (GetToken rt _ w) as [[t s1] w1] eqn:ET.
  apply GetToken_inv in ET as (Hs1 & Hc1 & Hcase).
  destruct t as [tok|e].
  - destruct (DeleteUser rt s1 _ w1) as [d w2] eqn:ED.
    apply DeleteUser_inv in ED as (Hs2 & Hd).
    assert (w' = w2 /\ r = d) as [-> ->] by (destruct d; simplify_eq; done).
    split; [congruence|].
    destruct Hcase as [(e & ? & _) | (lreq & Ht1 & Hm & Hu & _)]; [discriminate|].
    destruct Hd as [(e & -> & -> & _) | (dreq & Ht2 & Hdm & Hdu & _)].
    + exists [HttpDo lreq]. split; [done|]. right; left.
      exists lreq. repeat split; done.
    + exists [HttpDo lreq; HttpDo dreq]. split.
      { rewrite Ht2, Ht1, <- app_assoc. reflexivity. }
      right; right. exists lreq, dreq. rewrite Hc1 in Hdu. repeat split; done.
  - simplify_eq. split; [done|].
    destruct Hcase as [(e' & _ & -> & _) | (lreq & Ht1 & Hm & Hu & _)].
    + exists []. split; [by rewrite app_nil_r|]. left. done.
    + exists [HttpDo lreq]. split; [done|]. right; left. exists lreq. repeat split; done.
Qed.

Lemma createUser_inv u w r w' :
  createUser rt u w = (r, w') ->
  store w' = store w
  /\ exists evs, trace w' = (trace w ++ evs)%list
                 /\ loginThen rt (specRequest rt "POST" (endpoint (NewIdentityConfig (environ rt) []) "/users") (v1.Spec u))
                              (isOk r) evs.
Proof.
  unfold createUser, bind, ret. intros H.
  destruct (GetToken rt _ w) as [[t s1] w1] eqn:ET.
  apply GetToken_inv in ET as (Hs1 & Hc1 & Hcase).
  destruct t as [tok|e].
  - destruct (CreateUser rt s1 _ w1) as [d w2] eqn:ED.
    apply CreateUser_inv in ED as (Hs2 & Hd).
    assert (w' = w2 /\ r = d) as [-> ->] by (destruct d; simplify_eq; done).
    split; [congruence|].
    destruct Hcase as [(e & ? & _) | (lreq & Ht1 & Hm & Hu & _)]; [discriminate|].
    destruct Hd as [(e & -> & ->) | (creq & body & Ht2 & Hdm & Hdu & Hmb & Hb)].
    + exists [HttpDo lreq]. split; [done|]. right; left.
      exists lreq. repeat split; try done. intros [? ?]; discriminate.
    + exists [HttpDo lreq; HttpDo creq]. split.
      { rewrite Ht2, Ht1, <- app_assoc. reflexivity. }
      right; right. exists lreq, creq. rewrite Hc1 in Hdu.
      repeat split; try done. exists body. done.
  - simplify_eq. split; [done|].
    destruct Hcase as [(e' & _ & -> & _) | (lreq & Ht1 & Hm & Hu & _)].
    + exists []. split; [by rewrite app_nil_r|]. left. split; [done|].
      intros [? ?]; discriminate.
    + exists [HttpDo lreq]. split; [done|]. right; left. exists lreq.
      repeat split; try done. intros [? ?]; discriminate.
Qed.

Lemma updateUser_inv u extUser w r w' :
  updateUser rt u extUser w = (r, w') ->
  store w' = store w
  /\ exists evs, trace w' = (trace w ++ evs)%list
                 /\ loginThen rt (specRequest rt "PUT" (endpoint (NewIdentityConfig (environ rt) []) ("/users/" ++ ID extUser))
                                           (v1.Spec u))
                              (isOk r) evs.
Proof.
  unfold updateUser, bind, ret. intros H.
  destruct (GetToken rt _ w) as [[t s1] w1] eqn:ET.
  apply GetToken_inv in ET as (Hs1 & Hc1 & Hcase).
  destruct t as [tok|e].
  - destruct (UpdateUser rt s1 _ _ w1) as [d w2] eqn:ED.
    apply UpdateUser_inv in ED as (Hs2 & Hd).
    assert (w' = w2 /\ r = d) as [-> ->] by (destruct d; simplify_eq; done).
    split; [congruence|].
    destruct Hcase as [(e & ? & _) | (lreq & Ht1 & Hm & Hu & _)]; [discriminate|].
    destruct Hd as [(e & -> & ->) | (creq & body & Ht2 & Hdm & Hdu & Hmb & Hb)].
    + exists [HttpDo lreq]. split; [done|]. right; left.
      exists lreq. repeat split; try done. intros [? ?]; discriminate.
    + exists [HttpDo lreq; HttpDo creq]. split.
      { rewrite Ht2, Ht1, <- app_assoc. reflexivity. }
      right; right. exists lreq, creq. rewrite Hc1 in Hdu.
      repeat split; try done. exists body. done.
  - simplify_eq. split; [done|].
    destruct Hcase as [(e' & _ & -> & _) | (lreq & Ht1 & Hm & Hu & _)].
    + exists []. split; [by rewrite app_nil_r|]. left. split; [done|].
      intros [? ?]; discriminate.
    + exists [HttpDo lreq]. split; [done|]. right; left. exists lreq.
      repeat split; try done. intros [? ?]; discriminate.
Qed.

Lemma getUser_inv id w r w' :
  getUser rt id w = (r, w') ->
  store w' = store w
  /\ exists evs, trace w' = (trace w ++ evs)%list
                 /\ loginThen rt (userRequest rt "GET" id) (isOk r) evs.
Proof.
  unfold getUser, bind, ret. intros H.
  destruct (GetToken rt _ w) as [[t s1] w1] eqn:ET.
  apply GetToken_inv in ET as (Hs1 & Hc1 & Hcase).
  destruct t as [tok|e].
  - destruct (GetUser rt s1 _ w1) as [d w2] eqn:ED.
    apply GetUser_inv in ED as (Hs2 & Hd).
    assert (w' = w2 /\ r = d) as [-> ->] by (destruct d; simplify_eq; done).
    split; [congruence|].
    destruct Hcase as [(e & ? & _) | (lreq & Ht1 & Hm & Hu & _)]; [discriminate|].
    destruct Hd as [(e & -> & ->) | (creq & Ht2 & Hdm & Hdu & _)].
    + exists [HttpDo lreq]. split; [done|]. right; left.
      exists lreq. repeat split; try done. intros [? ?]; discriminate.
    + exists [HttpDo lreq; HttpDo creq]. split.
      { rewrite Ht2, Ht1, <- app_assoc. reflexivity. }
      right; right. exists lreq, creq. rewrite Hc1 in Hdu.
      repeat split; done.
  - simplify_eq. split; [done|].
    destruct Hcase as [(e' & _ & -> & _) | (lreq & Ht1 & Hm & Hu & _)].
    + exists []. split; [by rewrite app_nil_r|]. left. split; [done|].
      intros [? ?]; discriminate.
    + exists [HttpDo lreq]. split; [done|]. right; left. exists lreq.
      repeat split; try done. intros [? ?]; discriminate.
Qed.

End HelperFacts.

Lemma containsString_In slice s : containsString slice s = true <-> In s slice.
Proof.
  induction slice as [|item rest IH]; simpl; [split; [discriminate | tauto]|].
  destruct (String.eqb_spec item s) as [-> | Hne].
  - split; auto.
  - rewrite IH. split; [auto | intros [? | ?]; [contradiction | assumption]].
Qed.

Lemma containsString_not_In slice s : containsString slice s = false <-> ~ In s slice.
Proof.
  rewrite <- containsString_In. destruct (containsString slice s); split; done.
Qed.

Lemma removeString_not_In slice s : ~ In s (removeString slice s).
Proof.
  induction slice as [|item rest IH]; simpl; [tauto|].
  destruct (String.eqb_spec item s) as [-> | Hne]; simpl; [assumption|].
  intros [? | ?]; [contradiction | auto].
Qed.

(** The fetch of Reconcile only reads: it adds its own event and leaves the
    store alone; a record it returns is the stored one. *)
Lemma Get_inv rt key w r w' :
  Get rt key w = (r, w') ->
  store w' = store w /\ trace w' = (trace w ++ [ApiGet key])%list
  /\ forall u, r = Ok u -> store w !! key = Some u.
Proof.
  unfold Get. intros H. go_cases; simplify_eq; cbn; repeat split; intros; simplify_eq; done.
Qed.

(** ** Reconcile: the fetch *)

(** Whatever goes wrong in the fetch, Reconcile reports success: an absent
    record and every other failure alike end with a nil error and no
    requeue, after one log line. *)
Lemma Reconcile_fetch_error rt req w e w1 :
  Get rt req (started w) = (Err e, w1) ->
  exists ev, Reconcile rt req w
             = ((ctrl.Zero, None), {| store := store w1; trace := trace w1 ++ [ev] |})
             /\ ev = (if IsNotFound e
                      then LogInfo "User resource not found. Ignoring since object must be deleted"
                      else LogError e "Failed to get User").
Proof.
  unfold Reconcile, started. go_unfold. cbn. intros ->.
  destruct (IsNotFound e); eexists; split; reflexivity.
Qed.

(** C4, the absent record: Reconcile returns success with no requeue.  For a
    fetch that fails in another way the code does the same, where the claim
    asks for the error: the API server refuses the Get with a 500, and
    Reconcile logs "Failed to get User" and returns a nil error. *)
Lemma Reconcile_swallows_fetch_failure :
  let rt := Scenario.runtime Scenario.healthy ∅
              (fun _ _ => Some (StatusError 500 "etcd request timed out")) in
  let u := Scenario.record false [] "" "" in
  IsNotFound (StatusError 500 "etcd request timed out") = false
  /\ Reconcile rt Scenario.key (Scenario.world u)
     = ((ctrl.Zero, None),
        {| store := {[ Scenario.key := u ]};
           trace := [LogInfo "Start reconciliation"; ApiGet Scenario.key;
                     LogError (StatusError 500 "etcd request timed out") "Failed to get User"] |})
  /\ Reconcile (Scenario.runtime Scenario.healthy ∅ Scenario.noFault) Scenario.key
       {| store := ∅; trace := [] |}
     = ((ctrl.Zero, None),
        {| store := ∅;
           trace := [LogInfo "Start reconciliation"; ApiGet Scenario.key;
                     LogInfo "User resource not found. Ignoring since object must be deleted"] |}).
Proof. repeat split. Qed.

(** ** Reconcile: deletion *)

(** C7: for a record whose deletion is requested and whose finalizers do not
    hold the marker, Reconcile returns success at once: after the fetch no
    event is added (so no request goes to the identity service, and nothing
    is written to the API server) and the store is as it was. *)
Theorem Reconcile_deleted_without_marker rt req w u w1 :
  Get rt req (started w) = (Ok u, w1) ->
  v1.IsZero (v1.DeletionTimestamp u) = false ->
  ~ In userFinalizer (v1.Finalizers u) ->
  Reconcile rt req w = ((ctrl.Zero, None), w1)
  /\ store w1 = store w
  /\ trace w1 = (trace w ++ [LogInfo "Start reconciliation"; ApiGet req])%list.
Proof.
  intros HG Hdel Hfin. apply containsString_not_In in Hfin.
  split.
  - unfold Reconcile, started in *. go_unfold. cbn in *. rewrite HG.
    unfold v1.GetFinalizers. rewrite Hdel, Hfin. reflexivity.
  - apply Get_inv in HG as (Hs & Ht & _). unfold started in *. cbn in *.
    split; [done|]. rewrite Ht, <- app_assoc. reflexivity.
Qed.

Lemma Reconcile_deleted_without_marker_witness :
  let rt := Scenario.runtime Scenario.healthy ∅ Scenario.noFault in
  let u := Scenario.record true ["example.com/other"] "42" "Created" in
  Reconcile rt Scenario.key (Scenario.world u)
  = ((ctrl.Zero, None),
     {| store := {[ Scenario.key := u ]};
        trace := [LogInfo "Start reconciliation"; ApiGet Scenario.key] |}).
Proof.
  intros rt u.
  refine (proj1 (Reconcile_deleted_without_marker rt Scenario.key (Scenario.world u) u _ _ _ _)).
  - reflexivity.
  - reflexivity.
  - intros [H | []]. discriminate H.
Defined.

Lemma Update_inv rt u w r w' :
  Update rt u w = (r, w') ->
  trace w' = (trace w ++ [ApiUpdate u])%list
  /\ (r = None ->
      exists old, store w !! keyOf u = Some old
                  /\ store w' = <[keyOf u := v1.SetStatus u (v1.Status old)]> (store w))
  /\ (forall e, r = Some e -> store w' = store w).
Proof.
  unfold Update. intros H. go_cases; simplify_eq; cbn; repeat split; intros; simplify_eq; eauto.
Qed.

Lemma StatusUpdate_inv rt u w r w' :
  StatusUpdate rt u w = (r, w') ->
  trace w' = (trace w ++ [ApiStatusUpdate u])%list
  /\ (r = None ->
      exists old, store w !! keyOf u = Some old
                  /\ store w' = <[keyOf u := v1.SetStatus old (v1.Status u)]> (store w))
  /\ (forall e, r = Some e -> store w' = store w).
Proof.
  unfold StatusUpdate. intros H.
  go_cases; simplify_eq; cbn; repeat split; intros; simplify_eq; eauto.
Qed.

(** Where a list of events that are not writes is followed by one write,
    that write is the only one. *)
Lemma only_write_last (l : list Event) x pre y post :
  Forall (fun e => isWrite e = false) l ->
  isWrite y = true ->
  (l ++ [x] = pre ++ y :: post)%list ->
  pre = l /\ y = x /\ post = [].
Proof.
  intros Hl Hy. revert pre. induction Hl as [|a l Ha Hl IH]; intros pre Heq.
  - destruct pre as [|p pre]; simpl in Heq; simplify_eq; [done|].
    by destruct pre.
  - destruct pre as [|p pre]; simpl in Heq; simplify_eq; [congruence|].
    destruct (IH pre) as (-> & -> & ->); done.
Qed.

(** The events of a helper are requests to the identity service only. *)
Lemma loginThen_http rt P ok evs :
  loginThen rt P ok evs -> Forall (fun e => isWrite e = false) evs.
Proof.
  intros [[-> _] | [(l & -> & _) | (l & r & -> & _)]]; repeat constructor.
Qed.

Lemma loginThen_ok rt P (ok : Prop) evs :
  loginThen rt P ok evs -> ok ->
  exists lreq req, evs = [HttpDo lreq; HttpDo req] /\ loginRequest rt lreq /\ P req.
Proof.
  intros [[_ Hn] | [(l & _ & _ & Hn) | H]] Hok; [contradiction | contradiction | exact H].
Qed.

(** finalizeUser fails with the error of DeleteUser when the login went
    through and the delete did not. *)
Lemma finalizeUser_delete_error rt u w tok svc w2 e w3 :
  GetToken rt (freshService rt) w = (Ok tok, svc, w2) ->
  DeleteUser rt svc (v1.ID (v1.Status u)) w2 = (Some e, w3) ->
  finalizeUser rt u w = (Some e, w3).
Proof.
  unfold finalizeUser, freshService, bind, ret. intros -> ->. reflexivity.
Qed.

(** C1: for a record whose deletion is requested and that holds the
    finalizer marker, the only write of Reconcile is the update that drops
    the marker, and it comes after the DELETE request for the record's
    external id; when the external delete fails (DeleteUser returns an
    error, or finalizeUser does for any reason), Reconcile returns that
    error, writes nothing, and the stored record still holds the marker. *)
Theorem Reconcile_deletion_order rt req w u w1 :
  Get rt req (started w) = (Ok u, w1) ->
  v1.IsZero (v1.DeletionTimestamp u) = false ->
  In userFinalizer (v1.Finalizers u) ->
  (exists evs, trace (snd (Reconcile rt req w)) = (trace w1 ++ evs)%list
     /\ forall pre e post, isWrite e = true -> (evs = pre ++ e :: post)%list ->
          e = ApiUpdate (v1.SetFinalizers u (removeString (v1.Finalizers u) userFinalizer))
          /\ post = []
          /\ exists dreq, In (HttpDo dreq) pre
                          /\ userRequest rt "DELETE" (v1.ID (v1.Status u)) dreq)
  /\ (forall e w2, finalizeUser rt u w1 = (Some e, w2) ->
        Reconcile rt req w = ((ctrl.Zero, Some e), w2)
        /\ store w2 = store w
        /\ (exists u', store w2 !! req = Some u' /\ In userFinalizer (v1.Finalizers u'))
        /\ exists evs, trace w2 = (trace w1 ++ evs)%list
                       /\ Forall (fun e => isWrite e = false) evs)
  /\ (forall tok svc w2 e w3,
        GetToken rt (freshService rt) w1 = (Ok tok, svc, w2) ->
        DeleteUser rt svc (v1.ID (v1.Status u)) w2 = (Some e, w3) ->
        Reconcile rt req w = ((ctrl.Zero, Some e), w3)
        /\ store w3 = store w
        /\ (exists u', store w3 !! req = Some u' /\ In userFinalizer (v1.Finalizers u'))
        /\ exists evs, trace w3 = (trace w1 ++ evs)%list
                       /\ Forall (fun e => isWrite e = false) evs).
Proof.
  intros HG Hdel Hfin.
  assert (Hrun : forall r w2, finalizeUser rt u w1 = (r, w2) ->
             Reconcile rt req w
             = match r with
               | Some e => ((ctrl.Zero, Some e), w2)
               | None =>
                   let '(r', w3) := Update rt (v1.SetFinalizers u
                                       (removeString (v1.Finalizers u) userFinalizer)) w2 in
                   ((ctrl.Zero, r'), w3)
               end).
  { intros r w2 HF. unfold Reconcile, started in *. go_unfold. cbn in *. rewrite HG.
    unfold v1.GetFinalizers. apply containsString_In in Hfin. rewrite Hdel, Hfin. cbn.
    rewrite HF. destruct r; [reflexivity|].
    destruct (Update rt _ w2) as [[e|] w3]; reflexivity. }
  pose proof (Get_inv _ _ _ _ _ HG) as (Hs1 & _ & Hst). specialize (Hst u eq_refl).
  unfold started in Hs1, Hst; cbn in Hs1, Hst.
  assert (Hfail : forall e w2, finalizeUser rt u w1 = (Some e, w2) ->
             Reconcile rt req w = ((ctrl.Zero, Some e), w2)
             /\ store w2 = store w
             /\ (exists u', store w2 !! req = Some u' /\ In userFinalizer (v1.Finalizers u'))
             /\ exists evs, trace w2 = (trace w1 ++ evs)%list
                            /\ Forall (fun e => isWrite e = false) evs).
  { intros e w2 HF. split; [apply (Hrun _ _ HF)|].
    apply finalizeUser_inv in HF as (Hs2 & evs & Ht & Hev).
    split; [congruence|]. split.
    - exists u. split; [|done]. rewrite Hs2, Hs1. exact Hst.
    - exists evs. split; [done|]. eapply loginThen_http; eauto. }
  split; [|split; [exact Hfail|]].
  - destruct (finalizeUser rt u w1) as [r w2] eqn:HF.
    rewrite (Hrun _ _ eq_refl).
    apply finalizeUser_inv in HF as (Hs2 & evs & Ht & Hev).
    destruct r as [e|].
    + exists evs. split; [done|]. intros pre e' post He' ->.
      apply loginThen_http in Hev. apply Forall_app in Hev as [_ Hev].
      inversion Hev; congruence.
    + destruct (loginThen_ok _ _ _ _ Hev eq_refl) as (lreq & dreq & -> & _ & Hd).
      destruct (Update rt _ w2) as [r' w3] eqn:HU.
      apply Update_inv in HU as (Ht3 & _). cbn.
      exists [HttpDo lreq; HttpDo dreq;
              ApiUpdate (v1.SetFinalizers u (removeString (v1.Finalizers u) userFinalizer))].
      split. { rewrite Ht3, Ht, <- app_assoc. reflexivity. }
      intros pre e' post He' Heq.
      destruct (only_write_last [HttpDo lreq; HttpDo dreq]
                  (ApiUpdate (v1.SetFinalizers u (removeString (v1.Finalizers u) userFinalizer)))
                  pre e' post) as (-> & -> & ->);
        [repeat constructor | done | exact Heq |].
      repeat split. exists dreq. split; [simpl; auto | exact Hd].
  - intros tok svc w2 e w3 HT HD. apply Hfail.
    eapply finalizeUser_delete_error; eauto.
Qed.

Lemma Reconcile_deletion_order_witness :
  let rt := Scenario.runtime Scenario.loginOnly ∅ Scenario.noFault in
  let u := Scenario.record true [userFinalizer] "42" "Created" in
  fst (Reconcile rt Scenario.key (Scenario.world u)) = (ctrl.Zero, Some Scenario.unreachable)
  /\ store (snd (Reconcile rt Scenario.key (Scenario.world u))) = {[ Scenario.key := u ]}.
Proof.
  intros rt u.
  destruct (Reconcile_deletion_order rt Scenario.key (Scenario.world u) u
              (snd (Get rt Scenario.key (started (Scenario.world u)))))
    as (_ & _ & H).
  - reflexivity.
  - reflexivity.
  - left. reflexivity.
  - destruct (H "tok"
                (snd (fst (GetToken rt (freshService rt)
                             (snd (Get rt Scenario.key (started (Scenario.world u)))))))
                (snd (GetToken rt (freshService rt)
                        (snd (Get rt Scenario.key (started (Scenario.world u))))))
                Scenario.unreachable
                (snd (finalizeUser rt u (snd (Get rt Scenario.key (started (Scenario.world u)))))))
      as (HR & HS & _).
    + vm_compute. reflexivity.
    + vm_compute. reflexivity.
    + rewrite HR. split; [reflexivity | exact HS].
Defined.

(** ** Login first *)

(** C8: each helper of the controller (finalizeUser, createUser, getUser,
    updateUser) starts with GetToken on a service built afresh from the
    environment, and sends at most one further request after it; when that
    login fails, the helper returns the login's error and stops in the
    world the login left, so that no request other than the login itself
    has gone out. *)
Theorem helpers_login_first rt w :
  let login := GetToken rt (freshService rt) w in
  let after (w' : World) :=
    exists evs, trace w' = (trace (snd login) ++ evs)%list /\ (length evs <= 1)%nat in
  (forall u, after (snd (finalizeUser rt u w)))
  /\ (forall u, after (snd (createUser rt u w)))
  /\ (forall id, after (snd (getUser rt id w)))
  /\ (forall u extUser, after (snd (updateUser rt u extUser w)))
  /\ (forall e, fst (fst login) = Err e ->
        (forall u, finalizeUser rt u w = (Some e, snd login))
        /\ (forall u, createUser rt u w = (Err e, snd login))
        /\ (forall id, getUser rt id w = (Err e, snd login))
        /\ (forall u extUser, updateUser rt u extUser w = (Err e, snd login))
        /\ exists evs, trace (snd login) = (trace w ++ evs)%list
                       /\ forall req, In (HttpDo req) evs -> loginRequest rt req).
Proof.
  cbv zeta. unfold freshService.
  destruct (GetToken rt _ w) as [[t s1] w1] eqn:ET. cbn [fst snd].
  split; [|split; [|split; [|split; [|intros e ->; repeat split]]]].
  - intros u. unfold finalizeUser, bind, ret. rewrite ET. destruct t as [tok|e].
    + destruct (DeleteUser rt s1 _ w1) as [d w2] eqn:ED.
      apply DeleteUser_inv in ED as (_ & [(e & -> & -> & _) | (dreq & Ht & _)]).
      * exists []. cbn. rewrite app_nil_r. split; [done | lia].
      * exists [HttpDo dreq]. destruct d; cbn; (split; [done | lia]).
    + exists []. cbn. rewrite app_nil_r. split; [done | lia].
  - intros u. unfold createUser, bind, ret. rewrite ET. destruct t as [tok|e].
    + destruct (CreateUser rt s1 _ w1) as [d w2] eqn:ED.
      apply CreateUser_inv in ED as (_ & [(e & -> & ->) | (creq & b & Ht & _)]).
      * exists []. cbn. rewrite app_nil_r. split; [done | lia].
      * exists [HttpDo creq]. destruct d; cbn; (split; [done | lia]).
    + exists []. cbn. rewrite app_nil_r. split; [done | lia].
  - intros id. unfold getUser, bind, ret. rewrite ET. destruct t as [tok|e].
    + destruct (GetUser rt s1 _ w1) as [d w2] eqn:ED.
      apply GetUser_inv in ED as (_ & [(e & -> & ->) | (creq & Ht & _)]).
      * exists []. cbn. rewrite app_nil_r. split; [done | lia].
      * exists [HttpDo creq]. destruct d; cbn; (split; [done | lia]).
    + exists []. cbn. rewrite app_nil_r. split; [done | lia].
  - intros u extUser. unfold updateUser, bind, ret. rewrite ET. destruct t as [tok|e].
    + destruct (UpdateUser rt s1 _ _ w1) as [d w2] eqn:ED.
      apply UpdateUser_inv in ED as (_ & [(e & -> & ->) | (creq & b & Ht & _)]).
      * exists []. cbn. rewrite app_nil_r. split; [done | lia].
      * exists [HttpDo creq]. destruct d; cbn; (split; [done | lia]).
    + exists []. cbn. rewrite app_nil_r. split; [done | lia].
  - intros u. unfold finalizeUser, bind, ret. by rewrite ET.
  - intros u. unfold createUser, bind, ret. by rewrite ET.
  - intros id. unfold getUser, bind, ret. by rewrite ET.
  - intros u extUser. unfold updateUser, bind, ret. by rewrite ET.
  - apply GetToken_inv in ET
      as (_ & _ & [(e' & _ & -> & _) | (lreq & Ht & Hm & Hu & _)]).
    + exists []. split; [by rewrite app_nil_r | intros ? []].
    + exists [HttpDo lreq]. split; [done|].
      intros req [Heq | []]. injection Heq as <-. split; done.
Qed.

Lemma helpers_login_first_witness :
  let rt := Scenario.runtime Scenario.down ∅ Scenario.noFault in
  let u := Scenario.record true [userFinalizer] "42" "Created" in
  let w := Scenario.world u in
  finalizeUser rt u w = (Some Scenario.unreachable, snd (GetToken rt (freshService rt) w))
  /\ getUser rt "42" w = (Err Scenario.unreachable, snd (GetToken rt (freshService rt) w)).
Proof.
  intros rt u w.
  destruct (helpers_login_first rt w) as (_ & _ & _ & _ & H).
  destruct (H Scenario.unreachable) as (Hf & _ & Hg & _).
  - reflexivity.
  - split; [apply Hf | apply Hg].
Defined.

(** ** DeleteUser and the status of the answer *)

(** A 500 for the DELETE is answered with a nil error. *)
Lemma DeleteUser_ignores_status : ~ DeleteUser_surfaces_rejection.
Proof.
  intros H.
  apply (H (Scenario.runtime Scenario.failing500 ∅ Scenario.noFault)
           (NewIdentityService (NewIdentityConfig ∅ [])) "42"
           {| store := ∅; trace := [] |}
           {| StatusCode := 500; RespBody := Ok "" |}).
  - reflexivity.
  - reflexivity.
  - split; cbn; lia.
  - reflexivity.
Qed.

(** C2, as the code has it: DeleteUser returns an error exactly when the
    request cannot be built (the URL does not parse) or the transport fails;
    whenever the service answers, whatever the status of the answer (2xx,
    not-found or any other), DeleteUser returns nil. *)
Theorem DeleteUser_result rt s id w :
  (forall e, fst (DeleteUser rt s id w) = Some e <->
             url_Parse rt (endpoint (config s) ("/users/" ++ id)) = Some e
             \/ (url_Parse rt (endpoint (config s) ("/users/" ++ id)) = None
                 /\ roundTrip rt (trace w) (deleteRequest s id) = Err e))
  /\ (forall resp,
        url_Parse rt (endpoint (config s) ("/users/" ++ id)) = None ->
        roundTrip rt (trace w) (deleteRequest s id) = Ok resp ->
        DeleteUser rt s id w
        = (None, {| store := store w;
                    trace := trace w ++ [HttpDo (deleteRequest s id)] |})).
Proof.
  unfold DeleteUser, deleteRequest, endpoint. go_unfold.
  destruct (url_Parse rt _) as [e0|] eqn:EU; cbn.
  - split; [|discriminate].
    intros e. split; [intros [= ->]; by left | intros [[= ->] | [? _]]; done].
  - destruct (roundTrip rt _ _) as [resp|e0] eqn:ER; cbn.
    + split; [|reflexivity].
      intros e. split; [discriminate | intros [? | [_ ?]]; discriminate].
    + split; [|discriminate].
      intros e. split; [intros [= ->]; by right | intros [? | [_ [= ->]]]; done].
Qed.

Lemma DeleteUser_result_witness :
  let rt := Scenario.runtime Scenario.failing500 ∅ Scenario.noFault in
  let s := NewIdentityService (NewIdentityConfig ∅ []) in
  fst (DeleteUser rt s "42" {| store := ∅; trace := [] |}) = None.
Proof.
  intros rt s.
  destruct (DeleteUser_result rt s "42" {| store := ∅; trace := [] |}) as [_ H].
  rewrite (H {| StatusCode := 500; RespBody := Ok "" |}); reflexivity.
Defined.

(** ** Reconcile: a record that is not being deleted *)

(** The run of Reconcile on a record with an external id, after getUser has
    returned [extUser] in the world [w2]: the optional update, then the
    finalizer. *)
Lemma Reconcile_drift_run rt req w u w1 extUser w2 :
  Get rt req (started w) = (Ok u, w1) ->
  v1.IsZero (v1.DeletionTimestamp u) = true ->
  v1.ID (v1.Status u) <> "" ->
  getUser rt (v1.ID (v1.Status u)) w1 = (Ok extUser, w2) ->
  exists (eu : option error) (wu : World),
    ((specDiffers extUser (v1.Spec u) = false /\ wu = w2 /\ eu = None)
     \/ (specDiffers extUser (v1.Spec u) = true
         /\ exists r, updateUser rt u extUser (snd (logInfo "Updating user" w2)) = (r, wu)
                      /\ eu = match r with Err e => Some e | Ok _ => None end))
    /\ match eu with
       | Some e => Reconcile rt req w = ((ctrl.Zero, Some e), wu)
       | None =>
           if containsString (v1.Finalizers u) userFinalizer
           then Reconcile rt req w
                = ((ctrl.Zero, None), snd (logInfo "Reconciliation finished" wu))
           else Reconcile rt req w
                = match addFinalizer rt u wu with
                  | (Some e, wf) => ((ctrl.Zero, Some e), wf)
                  | (None, wf) =>
                      ((ctrl.Zero, None), snd (logInfo "Reconciliation finished" wf))
                  end
       end.
Proof.
  intros HG Hdel Hid HX.
  assert (Hid' : String.eqb (v1.ID (v1.Status u)) "" = false)
    by (destruct (String.eqb_spec (v1.ID (v1.Status u)) ""); done).
  unfold Reconcile, started in *. go_unfold. cbn [snd] in *.
  rewrite HG, Hdel, Hid'. cbn [negb]. rewrite HX.
  unfold v1.GetFinalizers.
  destruct (specDiffers extUser (v1.Spec u)) eqn:ED.
  - destruct (updateUser rt u extUser _) as [r wu] eqn:EU.
    exists (match r with Err e => Some e | Ok _ => None end), wu.
    split; [right; split; [done|]; exists r; done|].
    destruct r as [x|e]; [|reflexivity].
    destruct (containsString (v1.Finalizers u) userFinalizer); cbn [negb]; [reflexivity|].
    destruct (addFinalizer rt u wu) as [[e|] wf]; reflexivity.
  - exists None, w2. split; [left; done|].
    destruct (containsString (v1.Finalizers u) userFinalizer); cbn [negb]; [reflexivity|].
    destruct (addFinalizer rt u w2) as [[e|] wf]; reflexivity.
Qed.

Lemma addFinalizer_inv rt u w r w' :
  addFinalizer rt u w = (r, w') ->
  let u' := v1.SetFinalizers u (v1.Finalizers u ++ [userFinalizer])%list in
  trace w' = (trace w ++ [LogInfo "Adding finalizer"; ApiUpdate u'])%list
  /\ (r = None ->
      exists old, store w !! keyOf u = Some old
                  /\ store w' = <[keyOf u := v1.SetStatus u' (v1.Status old)]> (store w))
  /\ (forall e, r = Some e -> store w' = store w).
Proof.
  unfold addFinalizer, bind, logInfo, record, v1.GetFinalizers. cbn. intros H.
  apply Update_inv in H as (Ht & Hn & He). cbn in *.
  split; [rewrite Ht, <- app_assoc; reflexivity|]. split; assumption.
Qed.

Lemma specDiffers_iff extUser spec :
  specDiffers extUser spec = true
  <-> (Name extUser <> v1.Name spec \/ Firstname extUser <> v1.Firstname spec
       \/ Lastname extUser <> v1.Lastname spec \/ Role extUser <> v1.Role spec
       \/ Age extUser <> v1.Age spec).
Proof.
  unfold specDiffers.
  rewrite !orb_true_iff, !negb_true_iff, !String.eqb_neq, Z.eqb_neq. tauto.
Qed.

(** What Reconcile does after the optional update adds no request to the
    identity service. *)
Lemma Reconcile_after_update rt u wu (R : (ctrl.Result * option error) * World) :
  (if containsString (v1.Finalizers u) userFinalizer
   then R = ((ctrl.Zero, None), snd (logInfo "Reconciliation finished" wu))
   else R = match addFinalizer rt u wu with
            | (Some e, wf) => ((ctrl.Zero, Some e), wf)
            | (None, wf) => ((ctrl.Zero, None), snd (logInfo "Reconciliation finished" wf))
            end) ->
  exists rest, trace (snd R) = (trace wu ++ rest)%list
               /\ Forall (fun e => isHttp e = false) rest.
Proof.
  destruct (containsString _ _).
  - intros ->. eexists. split; [reflexivity|]. repeat constructor.
  - destruct (addFinalizer rt u wu) as [r wf] eqn:EA.
    apply addFinalizer_inv in EA as (Ht & _). destruct r; intros ->; cbn; rewrite Ht.
    + eexists. split; [reflexivity|]. repeat constructor.
    + rewrite <- app_assoc. eexists. split; [reflexivity|]. repeat constructor.
Qed.

(** C6: for a record that is not being deleted and has an external id,
    Reconcile logs in and sends a GET for that id; once the external user
    is there, an update is issued if and only if one of name, firstname,
    lastname, role, age differs between it and the spec.  No difference: no
    further request goes to the identity service.  A difference: updateUser
    runs next, its error is returned, and when it succeeds exactly a login
    and a PUT carrying the encoded full spec have been sent.  The passwords
    of the two sides have no part in the comparison. *)
Theorem Reconcile_drift rt req w u w1 extUser w2 :
  Get rt req (started w) = (Ok u, w1) ->
  v1.IsZero (v1.DeletionTimestamp u) = true ->
  v1.ID (v1.Status u) <> "" ->
  getUser rt (v1.ID (v1.Status u)) w1 = (Ok extUser, w2) ->
  let spec := v1.Spec u in
  let differs :=
    Name extUser <> v1.Name spec \/ Firstname extUser <> v1.Firstname spec
    \/ Lastname extUser <> v1.Lastname spec \/ Role extUser <> v1.Role spec
    \/ Age extUser <> v1.Age spec in
  let R := Reconcile rt req w in
  (exists lreq greq, trace w2 = (trace w1 ++ [HttpDo lreq; HttpDo greq])%list
                     /\ loginRequest rt lreq
                     /\ userRequest rt "GET" (v1.ID (v1.Status u)) greq)
  /\ (specDiffers extUser spec = true <-> differs)
  /\ (forall p q,
        specDiffers
          {| ID := ID extUser; Name := Name extUser; Password := p;
             Firstname := Firstname extUser; Lastname := Lastname extUser;
             Role := Role extUser; Age := Age extUser |}
          {| v1.Name := v1.Name spec; v1.Password := q;
             v1.Firstname := v1.Firstname spec; v1.Lastname := v1.Lastname spec;
             v1.Role := v1.Role spec; v1.Age := v1.Age spec |}
        = specDiffers extUser spec)
  /\ (~ differs ->
      exists rest, trace (snd R) = (trace w2 ++ rest)%list
                   /\ Forall (fun e => isHttp e = false) rest)
  /\ (differs ->
      exists r wu rest,
        updateUser rt u extUser (snd (logInfo "Updating user" w2)) = (r, wu)
        /\ trace (snd R) = (trace wu ++ rest)%list
        /\ Forall (fun e => isHttp e = false) rest
        /\ (forall e, r = Err e -> fst R = (ctrl.Zero, Some e))
        /\ (isOk r ->
            exists lreq preq,
              trace wu = (trace w2 ++ [LogInfo "Updating user"; HttpDo lreq; HttpDo preq])%list
              /\ loginRequest rt lreq
              /\ specRequest rt "PUT"
                   (endpoint (NewIdentityConfig (environ rt) []) ("/users/" ++ ID extUser))
                   spec preq)).
Proof.
  intros HG Hdel Hid HX spec differs R.
  destruct (Reconcile_drift_run _ _ _ _ _ _ _ HG Hdel Hid HX) as (eu & wu & Hcase & Hrun).
  fold R in Hrun. fold spec in Hcase.
  pose proof (specDiffers_iff extUser spec) as Hiff. fold differs in Hiff.
  split; [|split; [exact Hiff | split; [reflexivity|split]]].
  - apply getUser_inv in HX as (_ & evs & Ht & Hev).
    destruct (loginThen_ok _ _ _ _ Hev) as (lreq & greq & -> & Hl & Hg); [by eexists|].
    exists lreq, greq. done.
  - intros Hnd.
    destruct Hcase as [(_ & -> & ->) | (Hd & _)]; [|apply Hiff in Hd; contradiction].
    eapply Reconcile_after_update. exact Hrun.
  - intros Hd. apply Hiff in Hd.
    destruct Hcase as [(Hnd & _) | (_ & r & HU & ->)]; [congruence|].
    exists r, wu.
    assert (Hrest : exists rest, trace (snd R) = (trace wu ++ rest)%list
                                 /\ Forall (fun e => isHttp e = false) rest).
    { destruct r as [x|e].
      - eapply Reconcile_after_update. exact Hrun.
      - rewrite Hrun. exists []. split; [by rewrite app_nil_r | constructor]. }
    destruct Hrest as (rest & Hrest & Hq). exists rest.
    split; [exact HU|]. split; [exact Hrest|]. split; [exact Hq|]. split.
    + intros e ->. rewrite Hrun. reflexivity.
    + intros Hok. apply updateUser_inv in HU as (_ & evs & Ht & Hev).
      destruct (loginThen_ok _ _ _ _ Hev Hok) as (lreq & preq & -> & Hl & Hp).
      exists lreq, preq. cbn in Ht. rewrite Ht, <- app_assoc. done.
Qed.

Lemma Reconcile_drift_witness :
  let rt := Scenario.runtime Scenario.healthy {[ "u" := Scenario.ext "42" "y" ]}
              Scenario.noFault in
  let u := Scenario.record false [] "42" "Created" in
  let w1 := snd (Get rt Scenario.key (started (Scenario.world u))) in
  let w2 := snd (getUser rt "42" w1) in
  specDiffers (Scenario.ext "42" "y") Scenario.spec_a_x = true
  /\ exists lreq greq, trace w2 = (trace w1 ++ [HttpDo lreq; HttpDo greq])%list
                       /\ loginRequest rt lreq /\ userRequest rt "GET" "42" greq.
Proof.
  intros rt u w1 w2.
  destruct (Reconcile_drift rt Scenario.key (Scenario.world u) u w1 (Scenario.ext "42" "y") w2)
    as (Hfetch & Hdec & _).
  - reflexivity.
  - reflexivity.
  - discriminate.
  - vm_compute. reflexivity.
  - split; [|exact Hfetch].
    apply Hdec. right; right; right; left. discriminate.
Defined.

(** C5: for a record that is not being deleted and has no external id,
    Reconcile runs createUser on it.  When that fails, its error is
    returned, the store is untouched and no write has been attempted.  When
    it succeeds with [extUser], a login and a POST to /users carrying the
    encoded spec have been sent, and Reconcile writes the status
    {ID := extUser.ID, State := "Created"}: if the API server takes the
    write, the stored record has that status and Reconcile returns success;
    if it refuses, its error is returned and the store is untouched. *)
Theorem Reconcile_create rt req w u w1 :
  Get rt req (started w) = (Ok u, w1) ->
  keyOf u = req ->
  v1.IsZero (v1.DeletionTimestamp u) = true ->
  v1.ID (v1.Status u) = "" ->
  let w2 := snd (logInfo "Creating user" w1) in
  let R := Reconcile rt req w in
  (forall e w3, createUser rt u w2 = (Err e, w3) ->
     R = ((ctrl.Zero, Some e), w3)
     /\ store w3 = store w
     /\ exists evs, trace w3 = (trace w1 ++ evs)%list
                    /\ Forall (fun e => isWrite e = false) evs)
  /\ (forall extUser w3, createUser rt u w2 = (Ok extUser, w3) ->
        let u' := v1.SetStatus u {| v1.ID := ID extUser; v1.State := "Created" |} in
        (exists lreq creq,
            trace w3 = (trace w2 ++ [HttpDo lreq; HttpDo creq])%list
            /\ loginRequest rt lreq
            /\ specRequest rt "POST" (endpoint (NewIdentityConfig (environ rt) []) "/users")
                 (v1.Spec u) creq)
        /\ fst R = (ctrl.Zero, statusUpdateFault rt (trace w3) u')
        /\ (exists msg, trace (snd R) = (trace w3 ++ [ApiStatusUpdate u'; LogInfo msg])%list)
        /\ (statusUpdateFault rt (trace w3) u' = None ->
            store (snd R) = <[req := u']> (store w))
        /\ (statusUpdateFault rt (trace w3) u' <> None -> store (snd R) = store w)).
Proof.
  intros HG Hkey Hdel Hid w2 R.
  pose proof (Get_inv _ _ _ _ _ HG) as (Hs1 & _ & Hst). specialize (Hst u eq_refl).
  unfold started in Hs1, Hst; cbn in Hs1, Hst.
  assert (Hrun : forall r w3, createUser rt u w2 = (r, w3) ->
             R = match r with
                 | Err e => ((ctrl.Zero, Some e), w3)
                 | Ok extUser =>
                     match StatusUpdate rt (v1.SetStatus u
                             {| v1.ID := ID extUser; v1.State := "Created" |}) w3 with
                     | (Some e, w4) =>
                         ((ctrl.Zero, Some e), snd (logInfo "Failed to update user status" w4))
                     | (None, w4) => ((ctrl.Zero, None), snd (logInfo "User created" w4))
                     end
                 end).
  { intros r w3 HC. subst R w2. unfold Reconcile, started in *. go_unfold. cbn [snd] in *.
    rewrite HG, Hdel, Hid. cbn [negb String.eqb]. rewrite HC.
    destruct r as [x|e]; [|reflexivity].
    destruct (StatusUpdate rt _ w3) as [[e|] w4]; reflexivity. }
  split.
  - intros e w3 HC. split; [apply (Hrun _ _ HC)|].
    apply createUser_inv in HC as (Hs & evs & Ht & Hev).
    split; [subst w2; cbn in Hs; congruence|].
    exists (LogInfo "Creating user" :: evs). split.
    + rewrite Ht. subst w2. cbn. rewrite <- app_assoc. reflexivity.
    + constructor; [reflexivity|]. eapply loginThen_http; eauto.
  - intros extUser w3 HC u'. rewrite (Hrun _ _ HC).
    apply createUser_inv in HC as (Hs & evs & Ht & Hev).
    destruct (loginThen_ok _ _ _ _ Hev) as (lreq & creq & -> & Hl & Hc); [by eexists|].
    assert (Hs3 : store w3 = store w) by (subst w2; cbn in Hs; congruence).
    split; [exists lreq, creq; done|].
    fold u'. unfold StatusUpdate.
    replace (keyOf u') with req by (rewrite <- Hkey; reflexivity).
    rewrite Hs3, Hst.
    destruct (statusUpdateFault rt (trace w3) u') as [e|]; cbn.
    + split; [reflexivity|]. split; [eexists; rewrite <- app_assoc; reflexivity|].
      split; [discriminate | reflexivity].
    + split; [reflexivity|]. split; [eexists; rewrite <- app_assoc; reflexivity|].
      split; [reflexivity | congruence].
Qed.

Lemma Reconcile_create_witness :
  let rt := Scenario.runtime Scenario.healthy {[ "u" := Scenario.ext "42" "x" ]}
              Scenario.noFault in
  let u := Scenario.record false [] "" "" in
  store (snd (Reconcile rt Scenario.key (Scenario.world u)))
  = {[ Scenario.key := Scenario.record false [] "42" "Created" ]}
  /\ fst (Reconcile rt Scenario.key (Scenario.world u)) = (ctrl.Zero, None).
Proof.
  intros rt u.
  destruct (Reconcile_create rt Scenario.key (Scenario.world u) u
              (snd (Get rt Scenario.key (started (Scenario.world u))))) as (_ & H).
  - reflexivity.
  - reflexivity.
  - reflexivity.
  - reflexivity.
  - destruct (H (Scenario.ext "42" "x")
                (snd (createUser rt u
                        (snd (logInfo "Creating user"
                                (snd (Get rt Scenario.key (started (Scenario.world u)))))))))
      as (_ & HR & _ & HS & _).
    + vm_compute. reflexivity.
    + split; [|exact HR]. rewrite HS by reflexivity.
      apply insert_singleton_eq.
Defined.

(** ** The finalizer marker and the external id *)

(** A first Reconcile of a new record creates the external user and stores
    its id; the stored record has no finalizer yet. *)
Lemma Reconcile_create_without_marker : ~ Reconcile_keeps_markerInvariant.
Proof.
  intros H.
  pose (rt := Scenario.runtime Scenario.healthy {[ "u" := Scenario.ext "42" "x" ]}
                Scenario.noFault).
  pose (u := Scenario.record false [] "" "").
  assert (Hinit : markerInvariant (store (Scenario.world u))).
  { intros k u0 Hl Hid. unfold Scenario.world in Hl. cbn [store] in Hl.
    apply lookup_singleton_Some in Hl as [_ <-].
    exfalso. apply Hid. reflexivity. }
  specialize (H rt Scenario.key (Scenario.world u) Hinit
                Scenario.key (Scenario.record false [] "42" "Created")).
  destruct H.
  - vm_compute. reflexivity.
  - discriminate.
Qed.

(** C3, as the code has it: the marker is written by an update of its own,
    in an invocation that finds the external id already stored.  For a
    record that is not being deleted and whose Status.ID is not empty when
    Reconcile fetches it, every Reconcile that returns success leaves the
    stored record with the marker, and with the status and spec it had. *)
Theorem Reconcile_marker_after_id rt req w u w1 res w' :
  Get rt req (started w) = (Ok u, w1) ->
  keyOf u = req ->
  v1.IsZero (v1.DeletionTimestamp u) = true ->
  v1.ID (v1.Status u) <> "" ->
  Reconcile rt req w = ((res, None), w') ->
  exists u', store w' !! req = Some u'
             /\ In userFinalizer (v1.Finalizers u')
             /\ v1.Status u' = v1.Status u
             /\ v1.Spec u' = v1.Spec u.
Proof.
  intros HG Hkey Hdel Hid HR.
  pose proof (Get_inv _ _ _ _ _ HG) as (Hs1 & _ & Hst). specialize (Hst u eq_refl).
  unfold started in Hs1, Hst; cbn in Hs1, Hst.
  destruct (getUser rt (v1.ID (v1.Status u)) w1) as [[extUser|e] w2] eqn:HX.
  2:{ exfalso. revert HR. unfold Reconcile, started in *. go_unfold. cbn [snd] in *.
      rewrite HG, Hdel. destruct (String.eqb_spec (v1.ID (v1.Status u)) ""); [done|].
      cbn [negb]. rewrite HX. discriminate. }
  destruct (Reconcile_drift_run _ _ _ _ _ _ _ HG Hdel Hid HX) as (eu & wu & Hcase & Hrun).
  assert (Hsu : store wu = store w).
  { apply getUser_inv in HX as (Hs2 & _).
    destruct Hcase as [(_ & -> & _) | (_ & r & HU & _)]; [congruence|].
    apply updateUser_inv in HU as (Hs3 & _). cbn in Hs3. congruence. }
  destruct eu as [e|]; [rewrite Hrun in HR; discriminate|].
  destruct (containsString (v1.Finalizers u) userFinalizer) eqn:EC.
  - rewrite Hrun in HR. injection HR as _ <-. cbn.
    exists u. rewrite Hsu. repeat split; [done|]. by apply containsString_In.
  - destruct (addFinalizer rt u wu) as [[e|] wf] eqn:EA; rewrite Hrun in HR; [discriminate|].
    injection HR as _ <-. cbn.
    apply addFinalizer_inv in EA as (_ & Hn & _).
    destruct (Hn eq_refl) as (old & Hold & ->).
    rewrite Hkey, Hsu, Hst in Hold. injection Hold as <-.
    rewrite Hkey, lookup_insert_eq. eexists. split; [reflexivity|]. cbn.
    repeat split. apply in_or_app. right. left. reflexivity.
Qed.

Lemma Reconcile_marker_after_id_witness :
  let rt := Scenario.runtime Scenario.healthy {[ "u" := Scenario.ext "42" "x" ]}
              Scenario.noFault in
  let u := Scenario.record false [] "42" "Created" in
  exists u', store (snd (Reconcile rt Scenario.key (Scenario.world u))) !! Scenario.key = Some u'
             /\ In userFinalizer (v1.Finalizers u')
             /\ v1.Status u' = v1.Status u
             /\ v1.Spec u' = v1.Spec u.
Proof.
  intros rt u.
  apply (Reconcile_marker_after_id rt Scenario.key (Scenario.world u) u
           (snd (Get rt Scenario.key (started (Scenario.world u)))) ctrl.Zero).
  - reflexivity.
  - reflexivity.
  - reflexivity.
  - discriminate.
  - vm_compute. reflexivity.
Defined.

(** * Further properties *)

(** ** The string slices of the controller *)

Lemma containsString_removeString slice s x :
  containsString (removeString slice s) x
  = containsString slice x && negb (String.eqb x s).
Proof.
  induction slice as [|item rest IH]; simpl; [reflexivity|].
  destruct (String.eqb_spec item s) as [-> | Hne]; simpl.
  - rewrite IH. destruct (String.eqb_spec s x) as [-> | Hsx]; [|reflexivity].
    rewrite String.eqb_refl. simpl. apply andb_false_r.
  - destruct (String.eqb_spec item x) as [-> | Hix]; [|exact IH].
    simpl. destruct (String.eqb_spec x s); [contradiction | reflexivity].
Qed.

(** X1: removeString drops every occurrence of the string and nothing else:
    it is the slice filtered, in the order it had, so that an item is in the
    result exactly when it was in the slice and is not the removed string. *)
Theorem removeString_filter slice s :
  removeString slice s = List.filter (fun item => negb (String.eqb item s)) slice
  /\ (forall x, containsString (removeString slice s) x
                = containsString slice x && negb (String.eqb x s)).
Proof.
  split.
  - induction slice as [|item rest IH]; simpl; [reflexivity|].
    rewrite IH. reflexivity.
  - intros x. apply containsString_removeString.
Qed.

(** X2: appending a string to a slice that does not hold it (as addFinalizer
    does with the marker) and removing it again (as the deletion branch
    does) gives the slice back, and the appended string is found in
    between. *)
Theorem removeString_append slice s :
  containsString slice s = false ->
  containsString (slice ++ [s]) s = true
  /\ removeString (slice ++ [s]) s = slice.
Proof.
  induction slice as [|item rest IH]; simpl.
  - intros _. rewrite String.eqb_refl. simpl. split; reflexivity.
  - destruct (String.eqb_spec item s) as [-> | Hne]; [discriminate|].
    intros H. destruct (IH H) as [IH1 IH2]. simpl. rewrite IH2. split; [exact IH1 | reflexivity].
Qed.

Lemma removeString_append_witness :
  removeString (["example.com/other"] ++ [userFinalizer]) userFinalizer = ["example.com/other"].
Proof.
  apply (removeString_append ["example.com/other"] userFinalizer). reflexivity.
Defined.

(** ** More on the configuration *)

Lemma fold_options_field {A : Type} (get : IdentityConfig -> A) (pick : Setting -> option A)
      (os : list Setting) :
  (forall o cfg, get (optionOf o cfg) = match pick o with Some a => a | None => get cfg end) ->
  forall cfg,
    get (fold_left (fun cfg opt => opt cfg) (map optionOf os) cfg)
    = lastSetting pick os (get cfg).
Proof.
  intros Hstep. unfold lastSetting.
  induction os as [|o os IH]; intros cfg; simpl; [reflexivity|].
  rewrite IH, Hstep. reflexivity.
Qed.

(** X3: with the options WithHost, WithPort, WithUser, WithPass in any
    number and order, each field of the configuration is the argument of
    the last option for that field, and the value from the environment (or
    the default) when no option names the field: an option touches no field
    but its own. *)
Theorem NewIdentityConfig_last_option (environ : gmap string string) (os : list Setting) :
  let cfg := NewIdentityConfig environ (map optionOf os) in
  host cfg = lastSetting pickHost os (fromEnv environ "IDM_HOST" "127.0.0.1")
  /\ port cfg = lastSetting pickPort os (portFromEnv environ)
  /\ user cfg = lastSetting pickUser os (fromEnv environ "IDM_USER" "John")
  /\ pass cfg = lastSetting pickPass os (fromEnv environ "IDM_PASS" "VMw@re1!").
Proof.
  cbv zeta. rewrite NewIdentityConfig_fold.
  repeat split.
  - rewrite (fold_options_field host pickHost); [reflexivity | by intros []].
  - rewrite (fold_options_field port pickPort); [reflexivity | by intros []].
  - rewrite (fold_options_field user pickUser); [reflexivity | by intros []].
  - rewrite (fold_options_field pass pickPass); [reflexivity | by intros []].
Qed.

Lemma fromEnv_empty_unset (environ : gmap string string) (k key d : string) :
  fromEnv (<[k := ""]> environ) key d = fromEnv (delete k environ) key d.
Proof.
  unfold fromEnv. destruct (decide (k = key)) as [-> | Hne].
  - rewrite lookup_insert_eq, lookup_delete_eq. reflexivity.
  - rewrite lookup_insert_ne, lookup_delete_ne by done. reflexivity.
Qed.

(** X4: a variable set to the empty string counts as not set: the
    configuration is the same with the variable empty and with the variable
    removed, for each of the four variables and so for any name. *)
Theorem NewIdentityConfig_empty_is_unset
        (environ : gmap string string) (k : string) (opts : list ConfigOpts) :
  NewIdentityConfig (<[k := ""]> environ) opts = NewIdentityConfig (delete k environ) opts.
Proof.
  rewrite !NewIdentityConfig_fold. f_equal. f_equal; try apply fromEnv_empty_unset.
  unfold portFromEnv. destruct (decide (k = "IDM_PORT")) as [-> | Hne].
  - rewrite lookup_insert_eq, lookup_delete_eq. reflexivity.
  - rewrite lookup_insert_ne, lookup_delete_ne by done. reflexivity.
Qed.

Lemma Atoi_Itoa_port n :
  0 <= n <= 65535 -> strconv.Atoi (strconv.Itoa n) = (n, None).
Proof.
  intros Hn.
  pose (ok := fun hi lo : nat =>
                let k := Z.of_nat hi * 256 + Z.of_nat lo in
                match strconv.Atoi (strconv.Itoa k) with
                | (m, None) => m =? k
                | _ => false
                end).
  assert (Hall : forallb (fun hi => forallb (ok hi) (seq 0 256)) (seq 0 256) = true)
    by (vm_compute; reflexivity).
  rewrite forallb_forall in Hall.
  assert (Hhi : In (Z.to_nat (n / 256)) (seq 0 256)).
  { apply in_seq. split; [lia|]. simpl.
    apply Nat2Z.inj_lt. rewrite Z2Nat.id by (apply Z.div_pos; lia).
    apply Z.div_lt_upper_bound; lia. }
  specialize (Hall _ Hhi). rewrite forallb_forall in Hall.
  assert (Hlo : In (Z.to_nat (n mod 256)) (seq 0 256)).
  { apply in_seq. pose proof (Z.mod_pos_bound n 256 ltac:(lia)). lia. }
  specialize (Hall _ Hlo). unfold ok in Hall. cbv zeta in Hall.
  rewrite !Z2Nat.id in Hall
    by (try (apply Z.div_pos; lia); apply Z.mod_pos_bound; lia).
  replace (n / 256 * 256 + n mod 256) with n in Hall
    by (rewrite (Z.div_mod n 256) at 1; lia).
  destruct (strconv.Atoi (strconv.Itoa n)) as [m [e|]]; [discriminate|].
  apply Z.eqb_eq in Hall. subst m. reflexivity.
Qed.

(** X5: a port number from 0 to 65535 written in decimal in IDM_PORT is
    read back as that number, and the URLs built from the configuration
    show the text of the variable again between the colon and the path. *)
Theorem NewIdentityConfig_port_round_trip (environ : gmap string string) (n : Z) :
  0 <= n <= 65535 ->
  environ !! "IDM_PORT" = Some (strconv.Itoa n) ->
  let cfg := NewIdentityConfig environ [] in
  port cfg = n
  /\ forall path, endpoint cfg path
                  = "http://" ++ host cfg ++ ":" ++ strconv.Itoa n ++ path.
Proof.
  intros Hn Henv cfg.
  assert (Hp : port cfg = n).
  { subst cfg. rewrite NewIdentityConfig_fold. cbn. unfold portFromEnv. rewrite Henv.
    pose proof (Atoi_Itoa_port n Hn) as HA.
    destruct (String.eqb_spec (strconv.Itoa n) "") as [He | _].
    - rewrite He in HA. vm_compute in HA. discriminate.
    - rewrite HA. reflexivity. }
  split; [exact Hp|]. intros path. unfold endpoint. rewrite Hp. reflexivity.
Qed.

Lemma NewIdentityConfig_port_round_trip_witness :
  port (NewIdentityConfig {[ "IDM_PORT" := "9090" ]} []) = 9090.
Proof.
  apply (NewIdentityConfig_port_round_trip {[ "IDM_PORT" := "9090" ]} 9090).
  - lia.
  - reflexivity.
Defined.

(** ** The client never reads a status code *)

Section StatusBlind.

Variable rt : Runtime.
Variable answers : list Event -> Request -> Result Response.
Hypothesis same_bodies :
  forall history req, bodyOnly (answers history req) = bodyOnly (roundTrip rt history req).

Let rt' : Runtime := withRoundTrip rt answers.

Ltac status_blind :=
  go_unfold; cbn [withRoundTrip url_Parse json_MarshalLogin json_MarshalSpec
                  json_UnmarshalLogin json_UnmarshalUser roundTrip];
  repeat match goal with
         | |- context [match ?x with _ => _ end] =>
             lazymatch x with
             | answers _ _ => fail
             | roundTrip _ _ _ => fail
             | _ => destruct x; try reflexivity
             end
         end;
  match goal with
  | |- context [answers ?h ?r] =>
      let H := fresh in
      pose proof (same_bodies h r) as H;
      destruct (answers h r) as [[? ?]|?], (roundTrip rt h r) as [[? ?]|?];
      cbn in H; simplify_eq; cbn; reflexivity
  end.

Lemma GetToken_status_blind s w : GetToken rt' s w = GetToken rt s w.
Proof. unfold GetToken, rt'. status_blind. Qed.

Lemma CreateUser_status_blind s spec w : CreateUser rt' s spec w = CreateUser rt s spec w.
Proof. unfold CreateUser, rt'. status_blind. Qed.

Lemma GetUser_status_blind s id w : GetUser rt' s id w = GetUser rt s id w.
Proof. unfold GetUser, rt'. status_blind. Qed.

Lemma UpdateUser_status_blind s id spec w :
  UpdateUser rt' s id spec w = UpdateUser rt s id spec w.
Proof. unfold UpdateUser, rt'. status_blind. Qed.

Lemma DeleteUser_status_blind s id w : DeleteUser rt' s id w = DeleteUser rt s id w.
Proof. unfold DeleteUser, rt'. status_blind. Qed.

Lemma finalizeUser_status_blind u w : finalizeUser rt' u w = finalizeUser rt u w.
Proof.
  unfold finalizeUser, bind. rewrite GetToken_status_blind.
  change (environ rt') with (environ rt).
  destruct (GetToken rt _ w) as [[[tok|e] s1] w1]; [|reflexivity].
  rewrite DeleteUser_status_blind. reflexivity.
Qed.

Lemma createUser_status_blind u w : createUser rt' u w = createUser rt u w.
Proof.
  unfold createUser, bind. rewrite GetToken_status_blind.
  change (environ rt') with (environ rt).
  destruct (GetToken rt _ w) as [[[tok|e] s1] w1]; [|reflexivity].
  rewrite CreateUser_status_blind. reflexivity.
Qed.

Lemma getUser_status_blind id w : getUser rt' id w = getUser rt id w.
Proof.
  unfold getUser, bind. rewrite GetToken_status_blind.
  change (environ rt') with (environ rt).
  destruct (GetToken rt _ w) as [[[tok|e] s1] w1]; [|reflexivity].
  rewrite GetUser_status_blind. reflexivity.
Qed.

Lemma updateUser_status_blind u extUser w :
  updateUser rt' u extUser w = updateUser rt u extUser w.
Proof.
  unfold updateUser, bind. rewrite GetToken_status_blind.
  change (environ rt') with (environ rt).
  destruct (GetToken rt _ w) as [[[tok|e] s1] w1]; [|reflexivity].
  rewrite UpdateUser_status_blind. reflexivity.
Qed.

(** X6: no status code of the identity service reaches a decision.  When
    two transports give, for every request, the same error or answers with
    the same body, differing at most in the status codes, Reconcile returns
    the same result and leaves the same store and the same trace with
    either of them; so do the five operations of the client. *)
Theorem Reconcile_status_blind req w :
  Reconcile rt' req w = Reconcile rt req w
  /\ (forall s, GetToken rt' s w = GetToken rt s w)
  /\ (forall s spec, CreateUser rt' s spec w = CreateUser rt s spec w)
  /\ (forall s id, GetUser rt' s id w = GetUser rt s id w)
  /\ (forall s id spec, UpdateUser rt' s id spec w = UpdateUser rt s id spec w)
  /\ (forall s id, DeleteUser rt' s id w = DeleteUser rt s id w).
Proof.
  split; [|repeat split; intros;
           auto using GetToken_status_blind, CreateUser_status_blind, GetUser_status_blind,
                      UpdateUser_status_blind, DeleteUser_status_blind].
  unfold Reconcile, bind, ret, logInfo, logError, record, addFinalizer.
  change (Get rt') with (Get rt). change (Update rt') with (Update rt).
  change (StatusUpdate rt') with (StatusUpdate rt).
  cbn [fst snd].
  destruct (Get rt req _) as [[u|e] w1]; [|reflexivity].
  destruct (negb _).
  - destruct (containsString _ _); [|reflexivity].
    rewrite finalizeUser_status_blind. reflexivity.
  - destruct (String.eqb _ _).
    + rewrite createUser_status_blind. reflexivity.
    + rewrite getUser_status_blind.
      destruct (getUser rt _ w1) as [[extUser|e] w2]; [|reflexivity].
      destruct (specDiffers _ _); [|reflexivity].
      rewrite updateUser_status_blind. reflexivity.
Qed.

End StatusBlind.

Lemma Reconcile_status_blind_witness :
  let rt := Scenario.runtime Scenario.healthy ∅ Scenario.noFault in
  let u := Scenario.record true [userFinalizer] "42" "Created" in
  let unavailable := fun history req =>
                       match Scenario.healthy history req with
                       | Ok resp => Ok {| StatusCode := 503; RespBody := RespBody resp |}
                       | Err e => Err e
                       end in
  Reconcile (withRoundTrip rt unavailable) Scenario.key (Scenario.world u)
  = Reconcile rt Scenario.key (Scenario.world u).
Proof.
  intros rt u unavailable.
  apply (Reconcile_status_blind rt unavailable).
  intros history req. unfold unavailable, rt, Scenario.healthy.
  cbn [roundTrip Scenario.runtime].
  destruct (Scenario.isLogin req); reflexivity.
Defined.

(** ** Every run of Reconcile, branch by branch *)

(** Reconcile, unfolded along its branches: what it returns and the world it
    leaves, in terms of the fetch, the helpers and the writes it runs. *)
Lemma Reconcile_cases rt req w :
  let R := Reconcile rt req w in
  (exists e w1 ev,
      Get rt req (started w) = (Err e, w1)
      /\ R = ((ctrl.Zero, None), {| store := store w1; trace := trace w1 ++ [ev] |})
      /\ isHttp ev = false /\ isWrite ev = false)
  \/ exists u w1,
      Get rt req (started w) = (Ok u, w1)
      /\ ((v1.IsZero (v1.DeletionTimestamp u) = false
           /\ containsString (v1.Finalizers u) userFinalizer = false
           /\ R = ((ctrl.Zero, None), w1))
          \/ (v1.IsZero (v1.DeletionTimestamp u) = false
              /\ containsString (v1.Finalizers u) userFinalizer = true
              /\ exists r w2,
                  finalizeUser rt u w1 = (r, w2)
                  /\ match r with
                     | Some e => R = ((ctrl.Zero, Some e), w2)
                     | None =>
                         exists r' w3,
                           Update rt (v1.SetFinalizers u
                                        (removeString (v1.Finalizers u) userFinalizer)) w2
                           = (r', w3)
                           /\ R = ((ctrl.Zero, r'), w3)
                     end)
          \/ (v1.IsZero (v1.DeletionTimestamp u) = true
              /\ v1.ID (v1.Status u) = ""
              /\ exists r w3,
                  createUser rt u (snd (logInfo "Creating user" w1)) = (r, w3)
                  /\ match r with
                     | Err e => R = ((ctrl.Zero, Some e), w3)
                     | Ok extUser =>
                         exists r' w4 msg,
                           StatusUpdate rt (v1.SetStatus u
                                              {| v1.ID := ID extUser; v1.State := "Created" |}) w3
                           = (r', w4)
                           /\ R = ((ctrl.Zero, r'),
                                   {| store := store w4; trace := trace w4 ++ [LogInfo msg] |})
                     end)
          \/ (v1.IsZero (v1.DeletionTimestamp u) = true
              /\ v1.ID (v1.Status u) <> ""
              /\ exists r w2,
                  getUser rt (v1.ID (v1.Status u)) w1 = (r, w2)
                  /\ match r with
                     | Err e => R = ((ctrl.Zero, Some e), w2)
                     | Ok extUser =>
                         exists eu wu,
                           ((specDiffers extUser (v1.Spec u) = false /\ wu = w2 /\ eu = None)
                            \/ (specDiffers extUser (v1.Spec u) = true
                                /\ exists ru,
                                    updateUser rt u extUser (snd (logInfo "Updating user" w2))
                                    = (ru, wu)
                                    /\ eu = match ru with Err e => Some e | Ok _ => None end))
                           /\ match eu with
                              | Some e => R = ((ctrl.Zero, Some e), wu)
                              | None =>
                                  exists ef wf,
                                    ((containsString (v1.Finalizers u) userFinalizer = true
                                      /\ ef = None /\ wf = wu)
                                     \/ (containsString (v1.Finalizers u) userFinalizer = false
                                         /\ addFinalizer rt u wu = (ef, wf)))
                                    /\ R = match ef with
                                           | Some e => ((ctrl.Zero, Some e), wf)
                                           | None =>
                                               ((ctrl.Zero, None),
                                                snd (logInfo "Reconciliation finished" wf))
                                           end
                              end
                     end)).
Proof.
  cbv zeta.
  destruct (Get rt req (started w)) as [[u|e] w1] eqn:HG.
  - right. exists u, w1. split; [reflexivity|].
    destruct (v1.IsZero (v1.DeletionTimestamp u)) eqn:Hdel.
    + destruct (String.eqb_spec (v1.ID (v1.Status u)) "") as [Hid|Hid].
      * right; right; left. split; [reflexivity|]. split; [exact Hid|].
        destruct (createUser rt u (snd (logInfo "Creating user" w1))) as [r w3] eqn:HC.
        exists r, w3. split; [reflexivity|].
        unfold Reconcile, started in *. go_unfold. cbn [snd] in *.
        rewrite HG, Hdel, Hid. cbn [negb String.eqb]. rewrite HC.
        destruct r as [x|e]; [|reflexivity].
        destruct (StatusUpdate rt _ w3) as [[e|] w4]; eexists _, _, _; split; reflexivity.
      * right; right; right. split; [reflexivity|]. split; [exact Hid|].
        destruct (getUser rt (v1.ID (v1.Status u)) w1) as [[extUser|e] w2] eqn:HX.
        -- exists (Ok extUser), w2. split; [reflexivity|].
           destruct (Reconcile_drift_run _ _ _ _ _ _ _ HG Hdel Hid HX)
             as (eu & wu & Hcase & Hrun).
           exists eu, wu. split; [exact Hcase|].
           destruct eu as [e|]; [exact Hrun|].
           destruct (containsString (v1.Finalizers u) userFinalizer) eqn:EC.
           ++ exists None, wu. split; [left; done | exact Hrun].
           ++ destruct (addFinalizer rt u wu) as [ef wf] eqn:EA.
              exists ef, wf. split; [right; done|]. rewrite Hrun. destruct ef; reflexivity.
        -- exists (Err e), w2. split; [reflexivity|].
           unfold Reconcile, started in *. go_unfold. cbn [snd] in *.
           rewrite HG, Hdel. destruct (String.eqb_spec (v1.ID (v1.Status u)) ""); [done|].
           cbn [negb]. rewrite HX. reflexivity.
    + destruct (containsString (v1.Finalizers u) userFinalizer) eqn:EC.
      * right; left. split; [reflexivity|]. split; [reflexivity|].
        destruct (finalizeUser rt u w1) as [r w2] eqn:HF.
        exists r, w2. split; [reflexivity|].
        unfold Reconcile, started in *. go_unfold. cbn [snd] in *.
        rewrite HG, Hdel. unfold v1.GetFinalizers. rewrite EC. cbn [negb]. rewrite HF.
        destruct r as [e|]; [reflexivity|].
        destruct (Update rt _ w2) as [[e|] w3]; eexists _, _; split; reflexivity.
      * left. split; [reflexivity|]. split; [reflexivity|].
        unfold Reconcile, started in *. go_unfold. cbn [snd] in *.
        rewrite HG, Hdel. unfold v1.GetFinalizers. rewrite EC. reflexivity.
  - left. destruct (Reconcile_fetch_error _ _ _ _ _ HG) as (ev & HR & Hev).
    exists e, w1, ev. split; [reflexivity|]. split; [exact HR|].
    subst ev. destruct (IsNotFound e); split; reflexivity.
Qed.

Lemma loginThen_requests rt P ok evs :
  loginThen rt P ok evs ->
  List.filter isWrite evs = [] /\ (length (List.filter isHttp evs) <= 2)%nat
  /\ forall req, In (HttpDo req) evs -> loginRequest rt req \/ P req.
Proof.
  intros [[-> _] | [(l & -> & Hl & _) | (l & r & -> & Hl & Hr)]]; cbn.
  - repeat split; [lia | intros ? []].
  - repeat split; [lia | intros ? [[= <-] | []]; by left].
  - repeat split; [lia | intros ? [[= <-] | [[= <-] | []]]; [by left | by right]].
Qed.

(** X7: when the external user of a record with an external id cannot be
    fetched (the login fails, the transport fails, or the answer does not
    decode, as with the empty body of a not-found answer), Reconcile returns
    that error; it has sent nothing but the login and the GET, so no user
    is created in place of the missing one, and it has written nothing. *)
Theorem Reconcile_get_failure rt req w u w1 e w2 :
  Get rt req (started w) = (Ok u, w1) ->
  v1.IsZero (v1.DeletionTimestamp u) = true ->
  v1.ID (v1.Status u) <> "" ->
  getUser rt (v1.ID (v1.Status u)) w1 = (Err e, w2) ->
  Reconcile rt req w = ((ctrl.Zero, Some e), w2)
  /\ store w2 = store w
  /\ exists evs, trace w2 = (trace w1 ++ evs)%list
                 /\ List.filter isWrite evs = []
                 /\ forall req', In (HttpDo req') evs ->
                                 loginRequest rt req'
                                 \/ userRequest rt "GET" (v1.ID (v1.Status u)) req'.
Proof.
  intros HG Hdel Hid HX. split.
  - unfold Reconcile, started in *. go_unfold. cbn [snd] in *.
    rewrite HG, Hdel. destruct (String.eqb_spec (v1.ID (v1.Status u)) ""); [done|].
    cbn [negb]. rewrite HX. reflexivity.
  - apply Get_inv in HG as (Hs1 & _). unfold started in Hs1. cbn in Hs1.
    apply getUser_inv in HX as (Hs2 & evs & Ht & Hev).
    split; [congruence|]. exists evs. split; [exact Ht|].
    apply loginThen_requests in Hev as (Hw & _ & Hr). split; assumption.
Qed.

Lemma Reconcile_get_failure_witness :
  let notFound := fun (_ : list Event) req =>
                    if Scenario.isLogin req
                    then Ok {| StatusCode := 200; RespBody := Ok "tok" |}
                    else Ok {| StatusCode := 404; RespBody := Ok "" |} in
  let rt := Scenario.runtime notFound ∅ Scenario.noFault in
  let u := Scenario.record false [userFinalizer] "42" "Created" in
  fst (Reconcile rt Scenario.key (Scenario.world u)) = (ctrl.Zero, Some Scenario.jsonEOF)
  /\ store (snd (Reconcile rt Scenario.key (Scenario.world u))) = {[ Scenario.key := u ]}.
Proof.
  intros notFound rt u.
  destruct (Reconcile_get_failure rt Scenario.key (Scenario.world u) u
              (snd (Get rt Scenario.key (started (Scenario.world u))))
              Scenario.jsonEOF
              (snd (getUser rt "42" (snd (Get rt Scenario.key (started (Scenario.world u)))))))
    as (HR & HS & _).
  - reflexivity.
  - reflexivity.
  - discriminate.
  - vm_compute. reflexivity.
  - rewrite HR. split; [reflexivity | exact HS].
Defined.

(** X8: whatever happens, Reconcile returns the zero ctrl.Result: it never
    asks for a requeue itself, a retry can only come from the error. *)
Theorem Reconcile_result_zero rt req w :
  fst (fst (Reconcile rt req w)) = ctrl.Zero.
Proof.
  destruct (Reconcile_cases rt req w) as [(e & w1 & ev & _ & -> & _) | (u & w1 & _ & Hc)];
    [reflexivity|].
  destruct Hc as [(_ & _ & ->) | [(_ & _ & r & w2 & _ & Hr) | [(_ & _ & r & w3 & _ & Hr)
                 | (_ & _ & r & w2 & _ & Hr)]]]; [reflexivity|..].
  - destruct r; [by rewrite Hr|]. destruct Hr as (r' & w3 & _ & ->). reflexivity.
  - destruct r; [|by rewrite Hr]. destruct Hr as (r' & w4 & msg & _ & ->). reflexivity.
  - destruct r; [|by rewrite Hr]. destruct Hr as (eu & wu & _ & Hr).
    destruct eu; [by rewrite Hr|]. destruct Hr as (ef & wf & _ & ->). by destruct ef.
Qed.

Lemma reaches_refl w : reaches w w 0 0.
Proof. exists []. rewrite app_nil_r. repeat split; cbn; lia. Qed.

Lemma reaches_weaken w w' a b c d :
  reaches w w' a b -> (a <= c)%nat -> (b <= d)%nat -> reaches w w' c d.
Proof. intros (e & H & Ha & Hb) ? ?. exists e. repeat split; [done | lia | lia]. Qed.

Lemma reaches_more w w1 w2 a b evs :
  reaches w w1 a b -> trace w2 = (trace w1 ++ evs)%list ->
  reaches w w2 (a + writes evs) (b + requests evs).
Proof.
  intros (e1 & H1 & Ha & Hb) H2. exists (e1 ++ evs)%list.
  split; [rewrite H2, H1, app_assoc; reflexivity|].
  unfold writes, requests in *. rewrite !List.filter_app, !length_app. lia.
Qed.

Lemma reaches_log w w1 a b msg :
  reaches w w1 a b -> reaches w (snd (logInfo msg w1)) a b.
Proof.
  intros H. eapply reaches_weaken; [eapply (reaches_more _ _ _ _ _ [LogInfo msg] H)|..];
    [reflexivity | cbn; lia | cbn; lia].
Qed.

Lemma reaches_helper rt P ok w w1 w2 a b evs :
  reaches w w1 a b -> trace w2 = (trace w1 ++ evs)%list -> loginThen rt P ok evs ->
  reaches w w2 a (b + 2).
Proof.
  intros H Ht Hev. apply loginThen_requests in Hev as (Hw & Hh & _).
  eapply reaches_weaken; [exact (reaches_more _ _ _ _ _ _ H Ht)|..];
    unfold writes, requests; [rewrite Hw; cbn; lia | lia].
Qed.

Lemma reaches_write w w1 w2 a b ev :
  reaches w w1 a b -> trace w2 = (trace w1 ++ [ev])%list -> isHttp ev = false ->
  reaches w w2 (a + 1) b.
Proof.
  intros H Ht Hh.
  eapply reaches_weaken; [exact (reaches_more _ _ _ _ _ _ H Ht)|..];
    unfold writes, requests; cbn; rewrite ?Hh; [destruct (isWrite ev); cbn; lia | cbn; lia].
Qed.

(** X9: one run of Reconcile writes to the API server at most once and
    sends at most four requests to the identity service (two logins, a GET
    and a PUT at most). *)
Theorem Reconcile_effort rt req w :
  reaches w (snd (Reconcile rt req w)) 1 4.
Proof.
  assert (HGet : forall r w1, Get rt req (started w) = (r, w1) -> reaches w w1 0 0).
  { intros r w1 HG. apply Get_inv in HG as (_ & Ht & _).
    pose proof (reaches_log _ _ _ _ "Start reconciliation" (reaches_refl w)) as H0.
    eapply reaches_weaken; [exact (reaches_more _ _ _ _ _ _ H0 Ht)| cbn; lia | cbn; lia]. }
  destruct (Reconcile_cases rt req w) as [(e & w1 & ev & HG & -> & Hh & Hw) | (u & w1 & HG & Hc)].
  { specialize (HGet _ _ HG).
    eapply reaches_weaken; [eapply (reaches_more _ _ _ _ _ [ev] HGet); reflexivity|..];
      unfold writes, requests; cbn; rewrite ?Hh, ?Hw; cbn; lia. }
  specialize (HGet _ _ HG).
  destruct Hc as [(_ & _ & ->) | [(_ & _ & r & w2 & HF & Hr) | [(_ & _ & r & w3 & HC & Hr)
                 | (_ & _ & r & w2 & HX & Hr)]]].
  - eapply reaches_weaken; [exact HGet|lia|lia].
  - apply finalizeUser_inv in HF as (_ & evs & Ht & Hev).
    pose proof (reaches_helper _ _ _ _ _ _ _ _ _ HGet Ht Hev) as H2.
    destruct r as [e|].
    + rewrite Hr. eapply reaches_weaken; [exact H2|lia|lia].
    + destruct Hr as (r' & w3 & HU & ->). apply Update_inv in HU as (Ht3 & _).
      eapply reaches_weaken; [exact (reaches_write _ _ _ _ _ _ H2 Ht3 eq_refl)|lia|lia].
  - apply createUser_inv in HC as (_ & evs & Ht & Hev).
    pose proof (reaches_helper _ _ _ _ _ _ _ _ _
                  (reaches_log _ _ _ _ "Creating user" HGet) Ht Hev) as H2.
    destruct r as [x|e].
    + destruct Hr as (r' & w4 & msg & HU & ->). apply StatusUpdate_inv in HU as (Ht4 & _).
      pose proof (reaches_write _ _ _ _ _ _ H2 Ht4 eq_refl) as H3.
      eapply reaches_weaken; [exact (reaches_log _ _ _ _ msg H3)|lia|lia].
    + rewrite Hr. eapply reaches_weaken; [exact H2|lia|lia].
  - apply getUser_inv in HX as (_ & evs & Ht & Hev).
    pose proof (reaches_helper _ _ _ _ _ _ _ _ _ HGet Ht Hev) as H2.
    destruct r as [extUser|e]; [|rewrite Hr; eapply reaches_weaken; [exact H2|lia|lia]].
    destruct Hr as (eu & wu & Hup & Hr).
    assert (H3 : reaches w wu 0 4).
    { destruct Hup as [(_ & -> & _) | (_ & ru & HU & _)].
      - eapply reaches_weaken; [exact H2|lia|lia].
      - apply updateUser_inv in HU as (_ & evs' & Ht' & Hev').
        eapply reaches_weaken;
          [exact (reaches_helper _ _ _ _ _ _ _ _ _
                    (reaches_log _ _ _ _ "Updating user" H2) Ht' Hev')|lia|lia]. }
    destruct eu as [e|]; [rewrite Hr; eapply reaches_weaken; [exact H3|lia|lia]|].
    destruct Hr as (ef & wf & Hfin & ->).
    assert (H4 : reaches w wf 1 4).
    { destruct Hfin as [(_ & _ & ->) | (_ & HA)].
      - eapply reaches_weaken; [exact H3|lia|lia].
      - apply addFinalizer_inv in HA as (Hta & _).
        eapply reaches_weaken; [exact (reaches_more _ _ _ _ _ _ H3 Hta)|cbn; lia|cbn; lia]. }
    destruct ef as [e|]; [exact H4|].
    exact (reaches_log _ _ _ _ "Reconciliation finished" H4).
Qed.

(** ** What Reconcile does to the store *)

(** The store after Reconcile: as before, or with the fetched record's
    finalizers changed at the marker, or with a new status. *)
Lemma Reconcile_store rt req w :
  let s' := store (snd (Reconcile rt req w)) in
  s' = store w
  \/ exists u old,
      store w !! req = Some u /\ store w !! keyOf u = Some old
      /\ ((exists fs,
              s' = <[keyOf u := v1.SetStatus (v1.SetFinalizers u fs) (v1.Status old)]> (store w)
              /\ (fs = removeString (v1.Finalizers u) userFinalizer
                  \/ (fs = (v1.Finalizers u ++ [userFinalizer])%list
                      /\ containsString (v1.Finalizers u) userFinalizer = false)))
          \/ exists st, s' = <[keyOf u := v1.SetStatus old st]> (store w)).
Proof.
  cbv zeta.
  destruct (Reconcile_cases rt req w) as [(e & w1 & ev & HG & -> & _) | (u & w1 & HG & Hc)].
  { left. apply Get_inv in HG as (Hs & _). exact Hs. }
  apply Get_inv in HG as (Hs1 & _ & Hst). specialize (Hst u eq_refl).
  unfold started in Hs1, Hst. cbn in Hs1, Hst.
  destruct Hc as [(_ & _ & ->) | [(_ & _ & r & w2 & HF & Hr) | [(_ & _ & r & w3 & HC & Hr)
                 | (_ & _ & r & w2 & HX & Hr)]]].
  - left. exact Hs1.
  - apply finalizeUser_inv in HF as (Hs2 & _).
    destruct r as [e|]; [rewrite Hr; left; cbn; congruence|].
    destruct Hr as (r' & w3 & HU & ->). apply Update_inv in HU as (_ & Hn & He).
    destruct r' as [e|]; [left; cbn; rewrite (He e eq_refl); congruence|].
    destruct (Hn eq_refl) as (old & Hold & Hs3). right. exists u, old.
    rewrite Hs2, Hs1 in Hold, Hs3. split; [exact Hst|]. split; [exact Hold|].
    left. eexists. split; [exact Hs3 | left; reflexivity].
  - apply createUser_inv in HC as (Hs2 & _). cbn in Hs2.
    destruct r as [x|e]; [|rewrite Hr; left; cbn; congruence].
    destruct Hr as (r' & w4 & msg & HU & ->). apply StatusUpdate_inv in HU as (_ & Hn & He).
    destruct r' as [e|]; [left; cbn; rewrite (He e eq_refl); congruence|].
    destruct (Hn eq_refl) as (old & Hold & Hs3). right. exists u, old.
    rewrite Hs2, Hs1 in Hold, Hs3. split; [exact Hst|]. split; [exact Hold|].
    right. eexists. exact Hs3.
  - apply getUser_inv in HX as (Hs2 & _).
    destruct r as [extUser|e]; [|rewrite Hr; left; cbn; congruence].
    destruct Hr as (eu & wu & Hup & Hr).
    assert (Hsu : store wu = store w).
    { destruct Hup as [(_ & -> & _) | (_ & ru & HU & _)]; [congruence|].
      apply updateUser_inv in HU as (Hs3 & _). cbn in Hs3. congruence. }
    destruct eu as [e|]; [rewrite Hr; left; cbn; exact Hsu|].
    destruct Hr as (ef & wf & Hfin & ->).
    destruct Hfin as [(_ & -> & ->) | (Hnc & HA)]; [left; cbn; exact Hsu|].
    apply addFinalizer_inv in HA as (_ & Hn & He).
    destruct ef as [e|]; [left; cbn; rewrite (He e eq_refl); exact Hsu|].
    destruct (Hn eq_refl) as (old & Hold & Hs3). right. exists u, old.
    rewrite Hsu in Hold, Hs3. split; [exact Hst|]. split; [exact Hold|].
    left. eexists. split; [exact Hs3 | right; done].
Qed.

Lemma removeString_twice slice s :
  removeString (removeString slice s) s = removeString slice s.
Proof.
  induction slice as [|item rest IH]; simpl; [reflexivity|].
  destruct (String.eqb_spec item s) as [-> | Hne]; simpl; [exact IH|].
  destruct (String.eqb_spec item s); [contradiction|]. rewrite IH. reflexivity.
Qed.

Lemma removeString_append_same slice s :
  removeString (slice ++ [s]) s = removeString slice s.
Proof.
  induction slice as [|item rest IH]; simpl.
  - rewrite String.eqb_refl. reflexivity.
  - rewrite IH. reflexivity.
Qed.

Lemma removeString_NoDup slice s : NoDup slice -> NoDup (removeString slice s).
Proof.
  induction 1 as [|item rest Hin Hnd IH]; simpl; [constructor|].
  destruct (String.eqb_spec item s); simpl; [exact IH|].
  constructor; [|exact IH].
  intros Hc. apply Hin. apply list_elem_of_In. apply list_elem_of_In in Hc.
  apply containsString_In. apply containsString_In in Hc.
  rewrite containsString_removeString in Hc.
  apply andb_true_iff in Hc as [Hc _]. exact Hc.
Qed.

(** X10: Reconcile touches the store at the requested key only, and there
    it neither creates nor removes a record nor changes its name, its
    spec or its deletion timestamp.  (The API server keeps each record
    under its own namespace and name.) *)
Theorem Reconcile_frame rt req w :
  (forall u, store w !! req = Some u -> keyOf u = req) ->
  let s' := store (snd (Reconcile rt req w)) in
  (forall k, k <> req -> s' !! k = store w !! k)
  /\ match store w !! req with
     | None => s' !! req = None
     | Some u =>
         exists u', s' !! req = Some u'
                    /\ keyOf u' = req
                    /\ v1.DeletionTimestamp u' = v1.DeletionTimestamp u
                    /\ v1.Spec u' = v1.Spec u
     end.
Proof.
  intros Hwf. cbv zeta.
  destruct (Reconcile_store rt req w)
    as [-> | (u & old & Hu & Hold & [(fs & -> & _) | (st & ->)])].
  - split; [reflexivity|]. destruct (store w !! req) as [u|] eqn:E; [|reflexivity].
    exists u. specialize (Hwf u eq_refl). done.
  - pose proof (Hwf u Hu) as Hk. rewrite Hk in *.
    split; [intros k Hne; by rewrite lookup_insert_ne|].
    rewrite Hu, lookup_insert_eq. eexists. split; [reflexivity|]. done.
  - pose proof (Hwf u Hu) as Hk. rewrite Hk in *.
    split; [intros k Hne; by rewrite lookup_insert_ne|].
    rewrite Hu in Hold. injection Hold as <-.
    rewrite Hu, lookup_insert_eq. eexists. split; [reflexivity|]. done.
Qed.

Lemma Reconcile_frame_witness :
  let rt := Scenario.runtime Scenario.healthy {[ "u" := Scenario.ext "42" "x" ]}
              Scenario.noFault in
  let u := Scenario.record false [] "" "" in
  store (snd (Reconcile rt Scenario.key (Scenario.world u))) !! ("default", "bob") = None.
Proof.
  intros rt u.
  destruct (Reconcile_frame rt Scenario.key (Scenario.world u)) as [H _].
  - intros u0 Hu0. unfold Scenario.world in Hu0. cbn [store] in Hu0.
    apply lookup_singleton_Some in Hu0 as [_ <-]. reflexivity.
  - etransitivity; [apply H; discriminate | reflexivity].
Defined.

(** X11: of the finalizers of the stored record Reconcile changes the
    marker only: with the marker taken out, the list is the same before and
    after, in the same order; and a list without repetitions stays without
    repetitions (the marker is added only where it is absent). *)
Theorem Reconcile_finalizers rt req w u :
  store w !! req = Some u ->
  keyOf u = req ->
  exists u', store (snd (Reconcile rt req w)) !! req = Some u'
             /\ removeString (v1.Finalizers u') userFinalizer
                = removeString (v1.Finalizers u) userFinalizer
             /\ (NoDup (v1.Finalizers u) -> NoDup (v1.Finalizers u')).
Proof.
  intros Hu Hk.
  destruct (Reconcile_store rt req w)
    as [-> | (u0 & old & Hu0 & Hold & [(fs & -> & Hfs) | (st & ->)])].
  - exists u. done.
  - subst req. simplify_eq.
    rewrite lookup_insert_eq. eexists. split; [reflexivity|]. cbn.
    destruct Hfs as [-> | [-> Hnc]].
    + split; [apply removeString_twice | apply removeString_NoDup].
    + split; [apply removeString_append_same|].
      intros Hnd. apply NoDup_app. repeat split; [exact Hnd | | apply NoDup_singleton].
      intros x Hx Hx'. apply list_elem_of_In in Hx, Hx'. destruct Hx' as [<- | []].
      apply containsString_In in Hx. congruence.
  - subst req. simplify_eq.
    rewrite lookup_insert_eq. eexists. split; [reflexivity|]. done.
Qed.

Lemma Reconcile_finalizers_witness :
  let rt := Scenario.runtime Scenario.healthy {[ "u" := Scenario.ext "42" "x" ]}
              Scenario.noFault in
  let u := Scenario.record false ["example.com/other"] "42" "Created" in
  exists u', store (snd (Reconcile rt Scenario.key (Scenario.world u))) !! Scenario.key = Some u'
             /\ removeString (v1.Finalizers u') userFinalizer = ["example.com/other"].
Proof.
  intros rt u.
  destruct (Reconcile_finalizers rt Scenario.key (Scenario.world u) u) as (u' & Hu' & Hf & _).
  - reflexivity.
  - reflexivity.
  - exists u'. split; [exact Hu' | exact Hf].
Defined.

(** X12: when the external delete of a record that is being deleted and
    holds the marker has gone through, Reconcile writes the record with the
    marker taken out of its finalizers.  If the API server takes the write,
    that record is stored and Reconcile returns success; if it refuses,
    Reconcile returns its error and the stored record keeps the marker, so
    that the next run sends the DELETE again. *)
Theorem Reconcile_finalize_success rt req w u w1 w2 :
  Get rt req (started w) = (Ok u, w1) ->
  keyOf u = req ->
  v1.IsZero (v1.DeletionTimestamp u) = false ->
  In userFinalizer (v1.Finalizers u) ->
  finalizeUser rt u w1 = (None, w2) ->
  let u' := v1.SetFinalizers u (removeString (v1.Finalizers u) userFinalizer) in
  ~ In userFinalizer (v1.Finalizers u')
  /\ match updateFault rt (trace w2) u' with
     | None =>
         Reconcile rt req w
         = ((ctrl.Zero, None),
            {| store := <[req := u']> (store w); trace := trace w2 ++ [ApiUpdate u'] |})
     | Some e =>
         Reconcile rt req w
         = ((ctrl.Zero, Some e),
            {| store := store w; trace := trace w2 ++ [ApiUpdate u'] |})
     end.
Proof.
  intros HG Hkey Hdel Hfin HF u'. split; [apply removeString_not_In|].
  pose proof (Get_inv _ _ _ _ _ HG) as (Hs1 & _ & Hst). specialize (Hst u eq_refl).
  unfold started in Hs1, Hst; cbn in Hs1, Hst.
  pose proof (finalizeUser_inv _ _ _ _ _ HF) as (Hs2 & _).
  assert (HR : Reconcile rt req w
               = let '(r', w3) := Update rt u' w2 in ((ctrl.Zero, r'), w3)).
  { unfold Reconcile, started in *. go_unfold. cbn [snd] in *. rewrite HG.
    unfold v1.GetFinalizers. apply containsString_In in Hfin. rewrite Hdel, Hfin. cbn [negb].
    rewrite HF. fold u'. destruct (Update rt u' w2) as [[e|] w3]; reflexivity. }
  rewrite HR. unfold Update.
  replace (keyOf u') with req by (rewrite <- Hkey; reflexivity).
  rewrite Hs2, Hs1, Hst.
  destruct (updateFault rt (trace w2) u'); [reflexivity|].
  replace (v1.SetStatus u' (v1.Status u)) with u' by (destruct u; reflexivity).
  reflexivity.
Qed.

Lemma Reconcile_finalize_success_witness :
  let rt := Scenario.runtime Scenario.healthy ∅ Scenario.noFault in
  let u := Scenario.record true ["example.com/other"; userFinalizer] "42" "Created" in
  fst (Reconcile rt Scenario.key (Scenario.world u)) = (ctrl.Zero, None)
  /\ store (snd (Reconcile rt Scenario.key (Scenario.world u)))
     = {[ Scenario.key := Scenario.record true ["example.com/other"] "42" "Created" ]}.
Proof.
  intros rt u.
  destruct (Reconcile_finalize_success rt Scenario.key (Scenario.world u) u
              (snd (Get rt Scenario.key (started (Scenario.world u))))
              (snd (finalizeUser rt u (snd (Get rt Scenario.key (started (Scenario.world u)))))))
    as (_ & HR).
  - reflexivity.
  - reflexivity.
  - reflexivity.
  - right. left. reflexivity.
  - vm_compute. reflexivity.
  - cbn [updateFault rt Scenario.runtime] in HR. rewrite HR. cbn [fst snd store].
    split; [reflexivity|]. apply insert_singleton_eq.
Defined.

(** X13: a record in step with the identity service is left alone.  When
    the record is not being deleted, holds the marker, and the external
    user fetched for its id agrees with the spec on name, firstname,
    lastname, role and age, Reconcile returns success after exactly one
    login and one GET, and neither the store nor the external user is
    written. *)
Theorem Reconcile_converged rt req w u w1 extUser w2 :
  Get rt req (started w) = (Ok u, w1) ->
  v1.IsZero (v1.DeletionTimestamp u) = true ->
  v1.ID (v1.Status u) <> "" ->
  In userFinalizer (v1.Finalizers u) ->
  getUser rt (v1.ID (v1.Status u)) w1 = (Ok extUser, w2) ->
  Name extUser = v1.Name (v1.Spec u) ->
  Firstname extUser = v1.Firstname (v1.Spec u) ->
  Lastname extUser = v1.Lastname (v1.Spec u) ->
  Role extUser = v1.Role (v1.Spec u) ->
  Age extUser = v1.Age (v1.Spec u) ->
  Reconcile rt req w = ((ctrl.Zero, None), snd (logInfo "Reconciliation finished" w2))
  /\ store w2 = store w
  /\ exists lreq greq,
      trace w2 = (trace w1 ++ [HttpDo lreq; HttpDo greq])%list
      /\ loginRequest rt lreq
      /\ userRequest rt "GET" (v1.ID (v1.Status u)) greq.
Proof.
  intros HG Hdel Hid Hfin HX Hn Hf Hl Hr Ha.
  assert (Hsame : specDiffers extUser (v1.Spec u) = false).
  { destruct (specDiffers extUser (v1.Spec u)) eqn:E; [|reflexivity].
    apply specDiffers_iff in E. tauto. }
  destruct (Reconcile_drift_run _ _ _ _ _ _ _ HG Hdel Hid HX) as (eu & wu & Hcase & Hrun).
  destruct Hcase as [(_ & -> & ->) | (Hd & _)]; [|congruence].
  apply containsString_In in Hfin. rewrite Hfin in Hrun.
  split; [exact Hrun|].
  apply Get_inv in HG as (Hs1 & _). unfold started in Hs1. cbn in Hs1.
  apply getUser_inv in HX as (Hs2 & evs & Ht & Hev).
  split; [congruence|].
  destruct (loginThen_ok _ _ _ _ Hev) as (lreq & greq & -> & Hlr & Hgr); [by eexists|].
  exists lreq, greq. done.
Qed.

Lemma Reconcile_converged_witness :
  let rt := Scenario.runtime Scenario.healthy {[ "u" := Scenario.ext "42" "x" ]}
              Scenario.noFault in
  let u := Scenario.record false [userFinalizer] "42" "Created" in
  fst (Reconcile rt Scenario.key (Scenario.world u)) = (ctrl.Zero, None)
  /\ store (snd (Reconcile rt Scenario.key (Scenario.world u))) = {[ Scenario.key := u ]}.
Proof.
  intros rt u.
  destruct (Reconcile_converged rt Scenario.key (Scenario.world u) u
              (snd (Get rt Scenario.key (started (Scenario.world u))))
              (Scenario.ext "42" "x")
              (snd (getUser rt "42" (snd (Get rt Scenario.key (started (Scenario.world u)))))))
    as (HR & HS & _);
    [reflexivity | reflexivity | discriminate | left; reflexivity | vm_compute; reflexivity
    | reflexivity | reflexivity | reflexivity | reflexivity | reflexivity |].
  rewrite HR. cbn [fst snd logInfo record store]. split; [reflexivity | exact HS].
Defined.

(** ** Which requests leave the process *)

Lemma sendsOnly_refl w Q : sendsOnly w w Q.
Proof. exists []. rewrite app_nil_r. split; [reflexivity | intros ? []]. Qed.

Lemma sendsOnly_more w w1 w2 Q evs :
  sendsOnly w w1 Q -> trace w2 = (trace w1 ++ evs)%list ->
  (forall r, In (HttpDo r) evs -> Q r) -> sendsOnly w w2 Q.
Proof.
  intros (e1 & H1 & HQ) H2 HQ2. exists (e1 ++ evs)%list.
  split; [rewrite H2, H1, app_assoc; reflexivity|].
  intros r Hr. apply in_app_or in Hr as [Hr | Hr]; auto.
Qed.

Lemma sendsOnly_quiet w w1 Q ev :
  sendsOnly w w1 Q -> isHttp ev = false ->
  sendsOnly w {| store := store w1; trace := trace w1 ++ [ev] |} Q.
Proof.
  intros H Hq. eapply sendsOnly_more; [exact H | reflexivity|].
  intros r [Heq | []]. subst ev. discriminate.
Qed.

Lemma sendsOnly_helper rt P ok w w1 w2 (Q : Request -> Prop) evs :
  sendsOnly w w1 Q -> trace w2 = (trace w1 ++ evs)%list -> loginThen rt P ok evs ->
  (forall r, loginRequest rt r -> Q r) -> (forall r, P r -> Q r) ->
  sendsOnly w w2 Q.
Proof.
  intros H Ht Hev HL HP. eapply sendsOnly_more; [exact H | exact Ht|].
  apply loginThen_requests in Hev as (_ & _ & Hr). intros r Hin.
  destruct (Hr r Hin); auto.
Qed.

(** The requests of a run whose fetch returned the record [u]. *)
Lemma Reconcile_requests_fetched rt req w u w1 :
  Get rt req (started w) = (Ok u, w1) ->
  sendsOnly w1 (snd (Reconcile rt req w)) (allowedRequest rt u).
Proof.
  intros HG0.
  destruct (Reconcile_cases rt req w) as [(e & w1' & ev & HG & _) | (u' & w1' & HG & Hc)];
    [congruence|].
  rewrite HG0 in HG. injection HG as <- <-.
  pose proof (sendsOnly_refl w1 (allowedRequest rt u)) as H1.
  assert (HL : forall r, loginRequest rt r -> allowedRequest rt u r) by (intros; by left).
  destruct Hc as [(_ & _ & ->) | [(Hd & Hm & r & w2 & HF & Hr) | [(Hd & Hi & r & w3 & HC & Hr)
                 | (Hd & Hi & r & w2 & HX & Hr)]]].
  - exact H1.
  - apply finalizeUser_inv in HF as (_ & evs & Ht & Hev).
    assert (H2 : sendsOnly w1 w2 (allowedRequest rt u)).
    { eapply sendsOnly_helper; [exact H1 | exact Ht | exact Hev | exact HL|].
      intros r0 Hr0. right; left. apply containsString_In in Hm. done. }
    destruct r as [e|]; [rewrite Hr; exact H2|].
    destruct Hr as (r' & w3 & HU & ->). apply Update_inv in HU as (Ht3 & _).
    eapply sendsOnly_more; [exact H2 | exact Ht3|]. intros r0 [Hr0 | []]. discriminate.
  - apply createUser_inv in HC as (_ & evs & Ht & Hev).
    assert (H2 : sendsOnly w1 w3 (allowedRequest rt u)).
    { eapply sendsOnly_helper;
        [apply (sendsOnly_quiet w1 w1 _ (LogInfo "Creating user")); [exact H1 | reflexivity]
        | exact Ht | exact Hev | exact HL|].
      intros r0 Hr0. right; right; left. done. }
    destruct r as [x|e]; [|rewrite Hr; exact H2].
    destruct Hr as (r' & w4 & msg & HU & ->). apply StatusUpdate_inv in HU as (Ht4 & _).
    cbn [snd]. apply sendsOnly_quiet; [|reflexivity].
    eapply sendsOnly_more; [exact H2 | exact Ht4|]. intros r0 [Hr0 | []]. discriminate.
  - apply getUser_inv in HX as (_ & evs & Ht & Hev).
    assert (H2 : sendsOnly w1 w2 (allowedRequest rt u)).
    { eapply sendsOnly_helper; [exact H1 | exact Ht | exact Hev | exact HL|].
      intros r0 Hr0. right; right; right. split; [exact Hd|]. split; [exact Hi|]. by left. }
    destruct r as [extUser|e]; [|rewrite Hr; exact H2].
    destruct Hr as (eu & wu & Hup & Hr).
    assert (H3 : sendsOnly w1 wu (allowedRequest rt u)).
    { destruct Hup as [(_ & -> & _) | (_ & ru & HU & _)]; [exact H2|].
      apply updateUser_inv in HU as (_ & evs' & Ht' & Hev').
      eapply sendsOnly_helper;
        [apply (sendsOnly_quiet w1 w2 _ (LogInfo "Updating user")); [exact H2 | reflexivity]
        | exact Ht' | exact Hev' | exact HL|].
      intros r0 Hr0. right; right; right. split; [exact Hd|]. split; [exact Hi|].
      right. exists (ID extUser). exact Hr0. }
    destruct eu as [e|]; [rewrite Hr; exact H3|].
    destruct Hr as (ef & wf & Hfin & ->).
    assert (H4 : sendsOnly w1 wf (allowedRequest rt u)).
    { destruct Hfin as [(_ & _ & ->) | (_ & HA)]; [exact H3|].
      apply addFinalizer_inv in HA as (Hta & _).
      eapply sendsOnly_more; [exact H3 | exact Hta|].
      intros r0 [Hr0 | [Hr0 | []]]; discriminate. }
    destruct ef as [e|]; [exact H4|].
    apply sendsOnly_quiet; [exact H4 | reflexivity].
Qed.


(** X14: the requests of one run are determined by the record fetched.  If
    the fetch fails, nothing is sent.  Otherwise every request is a login,
    or the one that belongs to the state of the record: DELETE of its
    external id only when it is being deleted and holds the marker, POST of
    its spec only when it has no external id, GET of the id and PUT of the
    spec only when it has one. *)
Theorem Reconcile_requests rt req w :
  match Get rt req (started w) with
  | (Ok u, w1) => sendsOnly w1 (snd (Reconcile rt req w)) (allowedRequest rt u)
  | (Err _, _) => sendsOnly w (snd (Reconcile rt req w)) (fun _ => False)
  end.
Proof.
  destruct (Get rt req (started w)) as [[u|e] w1] eqn:HG.
  - apply (Reconcile_requests_fetched _ _ _ _ _ HG).
  - destruct (Reconcile_fetch_error _ _ _ _ _ HG) as (ev & -> & Hev).
    apply Get_inv in HG as (_ & Ht & _). cbn [snd].
    apply sendsOnly_quiet; [|subst ev; by destruct (IsNotFound e)].
    eapply sendsOnly_more; [apply (sendsOnly_quiet w w _ (LogInfo "Start reconciliation"));
                            [apply sendsOnly_refl | reflexivity]
                           | exact Ht |].
    intros r [Hr | []]. discriminate.
Qed.

Lemma endpoint_inj cfg a b : endpoint cfg a = endpoint cfg b -> a = b.
Proof.
  unfold endpoint. intros H.
  repeat match type of H with
         | String.append ?p _ = String.append ?p _ => apply (inj (String.append p)) in H
         end.
  exact H.
Qed.

Lemma allowedRequest_not_create rt u r :
  v1.ID (v1.Status u) <> "" \/ v1.IsZero (v1.DeletionTimestamp u) = false ->
  allowedRequest rt u r ->
  ~ (Method r = "POST" /\ URL r = endpoint (NewIdentityConfig (environ rt) []) "/users").
Proof.
  intros Hid HQ [Hm Hu].
  destruct HQ as [[_ Hl] | [(_ & _ & Hd & _) | [(Hz & He & _) | (_ & _ & [[Hg _] | (x & Hp & _)])]]].
  - rewrite Hu in Hl. apply endpoint_inj in Hl. discriminate.
  - congruence.
  - destruct Hid as [Hid | Hid]; congruence.
  - congruence.
  - congruence.
Qed.

(** X15: no second user is created for a record.  When the fetched record
    has an external id, or is being deleted, none of the requests of the
    run is a POST to the /users collection of the identity service. *)
Theorem Reconcile_no_second_create rt req w u w1 :
  Get rt req (started w) = (Ok u, w1) ->
  v1.ID (v1.Status u) <> "" \/ v1.IsZero (v1.DeletionTimestamp u) = false ->
  sendsOnly w1 (snd (Reconcile rt req w))
    (fun r => ~ (Method r = "POST"
                 /\ URL r = endpoint (NewIdentityConfig (environ rt) []) "/users")).
Proof.
  intros HG Hid.
  destruct (Reconcile_requests_fetched _ _ _ _ _ HG) as (evs & Ht & HQ).
  exists evs. split; [exact Ht|].
  intros r Hr. eapply allowedRequest_not_create; [exact Hid | exact (HQ r Hr)].
Qed.

Lemma Reconcile_no_second_create_witness :
  let rt := Scenario.runtime Scenario.healthy {[ "u" := Scenario.ext "42" "y" ]}
              Scenario.noFault in
  let u := Scenario.record false [] "42" "Created" in
  sendsOnly (snd (Get rt Scenario.key (started (Scenario.world u))))
    (snd (Reconcile rt Scenario.key (Scenario.world u)))
    (fun r => ~ (Method r = "POST" /\ URL r = "http://127.0.0.1:8080/users")).
Proof.
  intros rt u.
  apply (Reconcile_no_second_create rt Scenario.key (Scenario.world u) u).
  - reflexivity.
  - left. discriminate.
Defined.

(** ** The token of a helper *)

Ltac authorized :=
  go_unfold; intros H; go_cases; simplify_eq; cbn;
  first [ apply sendsOnly_refl
        | eexists [_]; split; [reflexivity|];
          intros r [Hr | []]; injection Hr as <-;
          unfold authorizedBy, HeaderSet; cbn;
          rewrite ?lookup_insert_ne by discriminate; apply lookup_insert_eq ].

Lemma CreateUser_authorized rt s spec w r w' :
  CreateUser rt s spec w = (r, w') -> sendsOnly w w' (authorizedBy (token s)).
Proof. unfold CreateUser. authorized. Qed.

Lemma GetUser_authorized rt s id w r w' :
  GetUser rt s id w = (r, w') -> sendsOnly w w' (authorizedBy (token s)).
Proof. unfold GetUser. authorized. Qed.

Lemma UpdateUser_authorized rt s id spec w r w' :
  UpdateUser rt s id spec w = (r, w') -> sendsOnly w w' (authorizedBy (token s)).
Proof. unfold UpdateUser. authorized. Qed.

Lemma DeleteUser_authorized rt s id w r w' :
  DeleteUser rt s id w = (r, w') -> sendsOnly w w' (authorizedBy (token s)).
Proof. unfold DeleteUser. authorized. Qed.

(** X16: the request a helper sends after its login carries, as bearer
    token, the token that this very login returned, which is the token
    field decoded from the body of the login answer; a request never goes
    out with a token of an earlier run. *)
Theorem helpers_use_login_token rt w tok s1 w1 :
  GetToken rt (freshService rt) w = (Ok tok, s1, w1) ->
  (exists lreq resp body,
      trace w1 = (trace w ++ [HttpDo lreq])%list
      /\ roundTrip rt (trace w) lreq = Ok resp
      /\ RespBody resp = Ok body
      /\ json_UnmarshalLogin rt body = Ok {| Token := tok |})
  /\ (forall u, sendsOnly w1 (snd (finalizeUser rt u w)) (authorizedBy tok))
  /\ (forall u, sendsOnly w1 (snd (createUser rt u w)) (authorizedBy tok))
  /\ (forall id, sendsOnly w1 (snd (getUser rt id w)) (authorizedBy tok))
  /\ (forall u extUser, sendsOnly w1 (snd (updateUser rt u extUser w)) (authorizedBy tok)).
Proof.
  intros HT.
  pose proof (GetToken_inv _ _ _ _ _ _ HT) as (_ & _ & [(e & ? & _) | (lreq & _ & _ & _ & Htok)]);
    [discriminate|].
  specialize (Htok tok eq_refl). split.
  - revert HT. unfold GetToken, freshService. go_unfold. intros HT. go_cases; simplify_eq.
    match goal with E : json_UnmarshalLogin _ _ = Ok ?l |- _ => destruct l as [t] end.
    cbn. eexists _, _, _. repeat split; eassumption.
  - unfold freshService in HT. repeat split.
    + intros u. unfold finalizeUser, bind, ret. rewrite HT.
      destruct (DeleteUser rt s1 _ w1) as [d w2] eqn:ED.
      apply DeleteUser_authorized in ED. rewrite Htok in ED. by destruct d.
    + intros u. unfold createUser, bind, ret. rewrite HT.
      destruct (CreateUser rt s1 _ w1) as [d w2] eqn:ED.
      apply CreateUser_authorized in ED. rewrite Htok in ED. by destruct d.
    + intros id. unfold getUser, bind, ret. rewrite HT.
      destruct (GetUser rt s1 _ w1) as [d w2] eqn:ED.
      apply GetUser_authorized in ED. rewrite Htok in ED. by destruct d.
    + intros u extUser. unfold updateUser, bind, ret. rewrite HT.
      destruct (UpdateUser rt s1 _ _ w1) as [d w2] eqn:ED.
      apply UpdateUser_authorized in ED. rewrite Htok in ED. by destruct d.
Qed.

Lemma helpers_use_login_token_witness :
  let rt := Scenario.runtime Scenario.healthy {[ "u" := Scenario.ext "42" "x" ]}
              Scenario.noFault in
  let w := Scenario.world (Scenario.record false [] "42" "Created") in
  sendsOnly (snd (GetToken rt (freshService rt) w)) (snd (getUser rt "42" w))
    (authorizedBy "tok").
Proof.
  intros rt w.
  destruct (helpers_use_login_token rt w "tok"
              (snd (fst (GetToken rt (freshService rt) w)))
              (snd (GetToken rt (freshService rt) w))) as (_ & _ & _ & H & _).
  - vm_compute. reflexivity.
  - apply H.
Defined.

(** ** Two runs in a row *)

(** The world a successful first run leaves: the status is stored. *)
Lemma Reconcile_created rt req w u w1 extUser w3 :
  Get rt req (started w) = (Ok u, w1) ->
  keyOf u = req ->
  v1.IsZero (v1.DeletionTimestamp u) = true ->
  v1.ID (v1.Status u) = "" ->
  createUser rt u (snd (logInfo "Creating user" w1)) = (Ok extUser, w3) ->
  let u' := v1.SetStatus u {| v1.ID := ID extUser; v1.State := "Created" |} in
  statusUpdateFault rt (trace w3) u' = None ->
  Reconcile rt req w
  = ((ctrl.Zero, None),
     {| store := <[req := u']> (store w);
        trace := (trace w3 ++ [ApiStatusUpdate u']) ++ [LogInfo "User created"] |}).
Proof.
  intros HG Hkey Hdel Hid HC u' Hok.
  pose proof (Get_inv _ _ _ _ _ HG) as (Hs1 & _ & Hst). specialize (Hst u eq_refl).
  unfold started in Hs1, Hst; cbn in Hs1, Hst.
  pose proof (createUser_inv _ _ _ _ _ HC) as (Hs3 & _). cbn in Hs3.
  unfold Reconcile, started in *. go_unfold. cbn [snd] in *.
  rewrite HG, Hdel, Hid. cbn [negb String.eqb]. rewrite HC. fold u'.
  unfold StatusUpdate. rewrite Hok.
  replace (keyOf u') with req by (rewrite <- Hkey; reflexivity).
  rewrite Hs3, Hs1, Hst. reflexivity.
Qed.

(** X17: creation happens once.  After a run that created the external
    user and stored its id, which is not empty, the next run for the same
    record (fetched without fault) finds the record with that id and sends
    no POST to /users. *)
Theorem Reconcile_create_once rt req w u w1 extUser w3 :
  Get rt req (started w) = (Ok u, w1) ->
  keyOf u = req ->
  v1.IsZero (v1.DeletionTimestamp u) = true ->
  v1.ID (v1.Status u) = "" ->
  createUser rt u (snd (logInfo "Creating user" w1)) = (Ok extUser, w3) ->
  ID extUser <> "" ->
  let u' := v1.SetStatus u {| v1.ID := ID extUser; v1.State := "Created" |} in
  let wA := snd (Reconcile rt req w) in
  statusUpdateFault rt (trace w3) u' = None ->
  getFault rt (trace (started wA)) req = None ->
  exists wB,
    Get rt req (started wA) = (Ok u', wB)
    /\ sendsOnly wB (snd (Reconcile rt req wA))
         (fun r => ~ (Method r = "POST"
                      /\ URL r = endpoint (NewIdentityConfig (environ rt) []) "/users")).
Proof.
  intros HG Hkey Hdel Hid HC Hext u' wA Hok Hget.
  pose proof (Reconcile_created _ _ _ _ _ _ _ HG Hkey Hdel Hid HC Hok) as HR.
  fold u' in HR.
  assert (HGA : Get rt req (started wA)
                = (Ok u', {| store := store wA;
                             trace := trace (started wA) ++ [ApiGet req] |})).
  { unfold Get. rewrite Hget. unfold started. cbn [logInfo record snd store].
    subst wA. rewrite HR. cbn [snd store]. rewrite lookup_insert_eq. reflexivity. }
  eexists. split; [exact HGA|].
  destruct (Reconcile_requests_fetched _ _ _ _ _ HGA) as (evs & Ht & HQ).
  exists evs. split; [exact Ht|].
  intros r Hr. eapply allowedRequest_not_create; [|exact (HQ r Hr)].
  left. exact Hext.
Qed.

Lemma Reconcile_create_once_witness :
  let rt := Scenario.runtime Scenario.healthy {[ "u" := Scenario.ext "42" "x" ]}
              Scenario.noFault in
  let u := Scenario.record false [] "" "" in
  let wA := snd (Reconcile rt Scenario.key (Scenario.world u)) in
  exists wB,
    Get rt Scenario.key (started wA) = (Ok (Scenario.record false [] "42" "Created"), wB)
    /\ sendsOnly wB (snd (Reconcile rt Scenario.key wA))
         (fun r => ~ (Method r = "POST" /\ URL r = "http://127.0.0.1:8080/users")).
Proof.
  intros rt u wA.
  apply (Reconcile_create_once rt Scenario.key (Scenario.world u) u
           (snd (Get rt Scenario.key (started (Scenario.world u))))
           (Scenario.ext "42" "x")
           (snd (createUser rt u
                   (snd (logInfo "Creating user"
                           (snd (Get rt Scenario.key (started (Scenario.world u))))))))).
  - reflexivity.
  - reflexivity.
  - reflexivity.
  - reflexivity.
  - vm_compute. reflexivity.
  - discriminate.
  - reflexivity.
  - reflexivity.
Defined.
